(** * lalitha: schedule grid scan and weekly recurrence events

    A shallow embedding of [lalitha.py]: the grid scan
    ([get_events_from_df]), the event assembly ([get_event_from_entry]),
    the recurring schedules ([get_recurrence_events]) and the order in
    which [main] consumes the two generators.

    Modelling choices.
    - A sheet (a pandas DataFrame with the default integer index) is a list
      of rows, a row a list of cells; a cell missing from a short row reads
      as NaN.  Column labels are the column positions.  A cell is empty, a
      text or a number; date-typed cells are left out.
    - [datetime.date] and the midnight [pd.Timestamp] values the code builds
      are calendar dates (year, month, day) of the proleptic Gregorian
      calendar, with [date.toordinal] and [date.weekday] as Python computes
      them.  A [pd.Timestamp] has the range of pandas 1.x and 2.x (64-bit
      nanoseconds): its midnights run from 1677-09-22 to 2262-04-11.
    - [pd.to_datetime(s, format=...)] has three outcomes: a value, when the
      text matches the regular expressions of [strptime] for the format
      (over ASCII text) and lies in the range of [pd.Timestamp]; [NaT],
      without an exception, for the empty text and the texts pandas reads
      as a missing time; and a [ValueError] otherwise.
    - Python exceptions are values of [exn]; a generator is the finite trace
      of what it yields, ended by normal exhaustion, a raised exception, or
      a [while] loop that has not finished within the given fuel (the
      number of tests of its condition).
    - [pd.Timestamp.now()] is read from an explicit clock: the k-th reading
      of a run is [clock k]. *)

From Stdlib Require Import ZArith List Bool Ascii String Lia Sorted.
From Stdlib Require Import DecimalString.
Import ListNotations.

Local Open Scope Z_scope.

(** ** Python strings *)

Module PyStr.

Definition is_digit (c : ascii) : bool :=
  let n := nat_of_ascii c in (48 <=? n)%nat && (n <=? 57)%nat.

Definition digit_val (c : ascii) : Z := Z.of_nat (nat_of_ascii c) - 48.

Definition digit_char (n : Z) : ascii := ascii_of_nat (Z.to_nat (48 + n mod 10)).

(** [\s] of the regular expressions, over ASCII. *)
Definition is_space (c : ascii) : bool :=
  let n := nat_of_ascii c in ((9 <=? n)%nat && (n <=? 13)%nat) || (n =? 32)%nat.

(** [str.upper] and [str.lower] on one ASCII character. *)
Definition upper_char (c : ascii) : ascii :=
  let n := nat_of_ascii c in
  if (97 <=? n)%nat && (n <=? 122)%nat then ascii_of_nat (n - 32) else c.

Definition lower_char (c : ascii) : ascii :=
  let n := nat_of_ascii c in
  if (65 <=? n)%nat && (n <=? 90)%nat then ascii_of_nat (n + 32) else c.

Fixpoint upper (s : string) : string :=
  match s with
  | EmptyString => EmptyString
  | String c r => String (upper_char c) (upper r)
  end.

Fixpoint lower (s : string) : string :=
  match s with
  | EmptyString => EmptyString
  | String c r => String (lower_char c) (lower r)
  end.

(** The slice [s[:n]]. *)
Definition take (n : nat) (s : string) : string := substring 0 n s.

(** [sep.join(xs)]. *)
Fixpoint join (sep : string) (xs : list string) : string :=
  match xs with
  | [] => EmptyString
  | [x] => x
  | x :: r => (x ++ sep ++ join sep r)%string
  end.

(** [str(n)] for a non-negative integer. *)
Definition of_nat (n : nat) : string := NilEmpty.string_of_uint (Nat.to_uint n).

(** Zero-padded decimal fields of [strftime]: [%m %d %H %I %M %S] and [%Y]. *)
Definition pad2 (n : Z) : string :=
  String (digit_char (n / 10)) (String (digit_char n) EmptyString).

Definition pad4 (n : Z) : string :=
  String (digit_char (n / 1000)) (String (digit_char (n / 100))
    (String (digit_char (n / 10)) (String (digit_char n) EmptyString))).

(** [needle in hay] for strings. *)
Fixpoint contains (needle hay : string) : bool :=
  prefix needle hay ||
  match hay with
  | EmptyString => false
  | String _ r => contains needle r
  end.

End PyStr.

(** ** Calendar dates and times of day *)

Module Calendar.

Record date := mkdate { year : Z; month : Z; day : Z }.

Record time := mktime { hour : Z; minute : Z }.

Record datetime := mkdatetime { dt_date : date; dt_time : time }.

Definition is_leap (y : Z) : bool :=
  (y mod 4 =? 0) && (negb (y mod 100 =? 0) || (y mod 400 =? 0)).

Definition days_in_month (y m : Z) : Z :=
  match m with
  | 2 => if is_leap y then 29 else 28
  | 4 | 6 | 9 | 11 => 30
  | _ => 31
  end.

Definition valid_date (d : date) : Prop :=
  1 <= year d /\ 1 <= month d <= 12 /\ 1 <= day d <= days_in_month (year d) (month d).

Definition valid_dateb (d : date) : bool :=
  (1 <=? year d) && (1 <=? month d) && (month d <=? 12) &&
  (1 <=? day d) && (day d <=? days_in_month (year d) (month d)).


Definition days_before_year (y : Z) : Z :=
  let p := y - 1 in p * 365 + p / 4 - p / 100 + p / 400.

Definition days_before_month (y m : Z) : Z :=
  match m with
  | 1 => 0 | 2 => 31 | 3 => 59 | 4 => 90 | 5 => 120 | 6 => 151
  | 7 => 181 | 8 => 212 | 9 => 243 | 10 => 273 | 11 => 304 | _ => 334
  end + (if (2 <? m) && is_leap y then 1 else 0).

(** [date.toordinal()]: 0001-01-01 is day 1. *)
Definition toordinal (d : date) : Z :=
  days_before_year (year d) + days_before_month (year d) (month d) + day d.

(** [date.weekday()]: Monday is 0. *)
Definition weekday (d : date) : Z := (toordinal d + 6) mod 7.

Definition day_names : list string :=
  ["Monday"; "Tuesday"; "Wednesday"; "Thursday"; "Friday"; "Saturday"; "Sunday"]%string.

Definition day_name (k : Z) : string := nth (Z.to_nat k) day_names EmptyString.

(** [strftime("%A")]. *)
Definition strftime_A (d : date) : string := day_name (weekday d).

(** The calendar day after [d]. *)
Definition next_day (d : date) : date :=
  if day d <? days_in_month (year d) (month d)
  then mkdate (year d) (month d) (day d + 1)
  else if month d <? 12
       then mkdate (year d) (month d + 1) 1
       else mkdate (year d + 1) 1 1.

(** The first and the last midnight a [pd.Timestamp] can hold. *)
Definition timestamp_min : date := mkdate 1677 9 22.
Definition timestamp_max : date := mkdate 2262 4 11.

Definition in_timestamp_range (d : date) : bool :=
  (toordinal timestamp_min <=? toordinal d) && (toordinal d <=? toordinal timestamp_max).


(** [strftime("%Y-%m-%d")], [strftime("%Y%m%d")], [strftime("%H:%M:%S")]. *)
Definition strftime_Y_m_d (d : date) : string :=
  (PyStr.pad4 (year d) ++ "-" ++ PyStr.pad2 (month d) ++ "-" ++ PyStr.pad2 (day d))%string.

Definition strftime_Ymd (d : date) : string :=
  (PyStr.pad4 (year d) ++ PyStr.pad2 (month d) ++ PyStr.pad2 (day d))%string.

Definition strftime_HMS (t : time) : string :=
  (PyStr.pad2 (hour t) ++ ":" ++ PyStr.pad2 (minute t) ++ ":00")%string.

(** [datetime.combine(d, t).strftime("%Y-%m-%dT%H:%M:%S")]. *)
Definition strftime_iso (dt : datetime) : string :=
  (strftime_Y_m_d (dt_date dt) ++ "T" ++ strftime_HMS (dt_time dt))%string.

(** [strftime("%m/%d/%Y at %I:%M %p")]. *)
Definition hour12 (h : Z) : Z := if h mod 12 =? 0 then 12 else h mod 12.

Definition strftime_stamp (dt : datetime) : string :=
  let d := dt_date dt in
  let t := dt_time dt in
  (PyStr.pad2 (month d) ++ "/" ++ PyStr.pad2 (day d) ++ "/" ++ PyStr.pad4 (year d)
   ++ " at " ++ PyStr.pad2 (hour12 (hour t)) ++ ":" ++ PyStr.pad2 (minute t)
   ++ " " ++ (if (hour t <? 12)%Z then "AM" else "PM"))%string.

End Calendar.

(** ** The pandas values and calls the code uses *)

Module Pandas.

Import Calendar.

(** A cell of a sheet: empty (NaN), text, or a number. *)
Inductive cell :=
| NaN
| Str (s : string)
| Num (z : Z).

(** A value, or pandas' [NaT]. *)
Inductive or_nat (A : Type) :=
| Val (a : A)
| NaT.

Arguments Val {A} a.
Arguments NaT {A}.

(** The texts [pd.to_datetime] reads as a missing time. *)
Definition nat_strings : list string :=
  ["NaT"; "nat"; "NAT"; "nan"; "NaN"; "NAN"]%string.

Definition is_nat_text (s : string) : bool :=
  (String.length s =? 0)%nat || existsb (String.eqb s) nat_strings.

(** [pd.isna]. *)
Definition isna (c : cell) : bool :=
  match c with NaN => true | _ => false end.

(** [==] between a Python string and a cell value. *)
Definition str_eq_cell (s : string) (c : cell) : bool :=
  match c with Str t => String.eqb s t | _ => false end.

(** A DataFrame with the default integer index, row by row. *)
Definition DataFrame := list (list cell).

(** The cell at a position that exists; short rows are padded with NaN. *)
Definition iat (df : DataFrame) (r c : nat) : cell := nth c (nth r df []) NaN.

(** The text of [s] before the first character satisfying [p], and the rest
    from that character on. *)
Fixpoint break (p : ascii -> bool) (s : string) : string * string :=
  match s with
  | EmptyString => (EmptyString, EmptyString)
  | String c r =>
      if p c then (EmptyString, s)
      else let '(a, b) := break p r in (String c a, b)
  end.

Fixpoint drop_while (p : ascii -> bool) (s : string) : string :=
  match s with
  | EmptyString => EmptyString
  | String c r => if p c then drop_while p r else s
  end.

Definition in_range (lo hi c : ascii) : bool :=
  (nat_of_ascii lo <=? nat_of_ascii c)%nat && (nat_of_ascii c <=? nat_of_ascii hi)%nat.

(** [%m] and [%I]: [1[0-2]|0[1-9]|[1-9]]. *)
Definition field_m (f : string) : option Z :=
  match f with
  | String a EmptyString =>
      if in_range "1" "9" a then Some (PyStr.digit_val a) else None
  | String a (String b EmptyString) =>
      if (Ascii.eqb a "1" && in_range "0" "2" b) || (Ascii.eqb a "0" && in_range "1" "9" b)
      then Some (10 * PyStr.digit_val a + PyStr.digit_val b) else None
  | _ => None
  end.

(** [%d]: [3[0-1]|[1-2]\d|0[1-9]|[1-9]| [1-9]]. *)
Definition field_d (f : string) : option Z :=
  match f with
  | String a EmptyString =>
      if in_range "1" "9" a then Some (PyStr.digit_val a) else None
  | String a (String b EmptyString) =>
      if (Ascii.eqb a "3" && in_range "0" "1" b)
         || (in_range "1" "2" a && in_range "0" "9" b)
         || (Ascii.eqb a "0" && in_range "1" "9" b)
      then Some (10 * PyStr.digit_val a + PyStr.digit_val b)
      else if Ascii.eqb a " " && in_range "1" "9" b then Some (PyStr.digit_val b)
      else None
  | _ => None
  end.

(** [%Y]: [\d\d\d\d]. *)
Definition field_Y (f : string) : option Z :=
  match f with
  | String a (String b (String c (String d EmptyString))) =>
      if PyStr.is_digit a && PyStr.is_digit b && PyStr.is_digit c && PyStr.is_digit d
      then Some (1000 * PyStr.digit_val a + 100 * PyStr.digit_val b
                 + 10 * PyStr.digit_val c + PyStr.digit_val d)
      else None
  | _ => None
  end.

(** [%M]: [[0-5]\d|\d]. *)
Definition field_M (f : string) : option Z :=
  match f with
  | String a EmptyString =>
      if PyStr.is_digit a then Some (PyStr.digit_val a) else None
  | String a (String b EmptyString) =>
      if in_range "0" "5" a && PyStr.is_digit b
      then Some (10 * PyStr.digit_val a + PyStr.digit_val b) else None
  | _ => None
  end.

Definition is_slash (c : ascii) : bool := Ascii.eqb c "/".
Definition is_colon (c : ascii) : bool := Ascii.eqb c ":".

(** The date of a text that matches ["%m/%d/%Y"]: [None] stands for the
    [ValueError] of a text that does not match, is no calendar date, or is
    a date outside the range of [pd.Timestamp]. *)
Definition to_datetime_mdY (s : string) : option date :=
  let '(fm, r1) := break is_slash s in
  match r1 with
  | String _ r1' =>
      let '(fd, r2) := break is_slash r1' in
      match r2 with
      | String _ fy =>
          match field_m fm, field_d fd, field_Y fy with
          | Some m, Some d, Some y =>
              let dt := mkdate y m d in
              if valid_dateb dt && in_timestamp_range dt then Some dt else None
          | _, _, _ => None
          end
      | EmptyString => None
      end
  | EmptyString => None
  end.

(** The time of day of a text that matches ["%I:%M %p"]. *)
Definition to_datetime_IMp (s : string) : option time :=
  let '(fi, r1) := break is_colon s in
  match r1 with
  | String _ r1' =>
      let '(fmin, r2) := break PyStr.is_space r1' in
      match r2 with
      | String _ _ =>
          let p := PyStr.lower (drop_while PyStr.is_space r2) in
          match field_m fi, field_M fmin with
          | Some h, Some mi =>
              if String.eqb p "am" then Some (mktime (if h =? 12 then 0 else h) mi)
              else if String.eqb p "pm" then Some (mktime (if h =? 12 then 12 else h + 12) mi)
              else None
          | _, _ => None
          end
      | EmptyString => None
      end
  | EmptyString => None
  end.

(** [pd.to_datetime(s, format=...)] on a text, for the format [strptime]
    stands for: [NaT] without an exception for a missing-time text, the
    value of a match, [None] for the [ValueError] otherwise. *)
Definition to_datetime {A : Type} (strptime : string -> option A) (s : string)
  : option (or_nat A) :=
  if is_nat_text s then Some NaT
  else match strptime s with
       | Some a => Some (Val a)
       | None => None
       end.

(** [pd.to_datetime(c, format="%m/%d/%Y").date()] on a cell that is not NaN:
    a number never matches the format, and [NaT.date()] is [NaT]. *)
Definition cell_to_date (c : cell) : option (or_nat date) :=
  match c with
  | Str s => to_datetime to_datetime_mdY s
  | _ => None
  end.

End Pandas.

(** ** The program *)

Module Lalitha.

Import Calendar Pandas.

(** Python exceptions the core can raise: [ValueError] (line 85, the ones
    [pd.to_datetime] raises outside a [try], and the ones of [NaT.time] and
    [NaT.strftime]), the failed [assert] of line 90, the [KeyError] of a
    dictionary or Series lookup, and the exception of a [pd.Timestamp]
    addition that leaves the range of [pd.Timestamp]
    ([OutOfBoundsDatetime]; an [OverflowError] in some versions). *)
Inductive exn :=
| ValueError (msg : string)
| AssertionError (msg : string)
| KeyError (key : cell)
| OutOfBoundsDatetime.

(** [cfg["role_info"][role]]. *)
Record RoleInfo := mkRoleInfo {
  ri_title : string;
  ri_location : string;
  ri_start_time : string;
  ri_end_time : string
}.

(** One element of [cfg["recurring_schedules"]]; [days] keeps the order of
    the configuration. *)
Record Schedule := mkSchedule {
  e_title : string;
  e_location : string;
  e_days : list string;
  e_start_time : string;
  e_end_time : string;
  e_start_date : string;
  e_end_date : string
}.

Record Cfg := mkCfg {
  aliases : list string;
  role_info : list (string * RoleInfo);
  recurring_schedules : list Schedule
}.

(** The dictionary both generators yield; the grid events have no
    ["recurrence"] key. *)
Record Event := mkEvent {
  title : string;
  location : string;
  description : string;
  start_datetime : string;
  end_datetime : string;
  recurrence : option string
}.

(** The sheets, in the iteration order of [df_dict.items()]. *)
Definition Sheets := list (string * DataFrame).

(** The k-th reading of [pd.Timestamp.now()] in a run. *)
Definition Clock := nat -> datetime.

Fixpoint dict_get {V : Type} (d : list (string * V)) (k : string) : option V :=
  match d with
  | [] => None
  | (k', v) :: r => if String.eqb k k' then Some v else dict_get r k
  end.

(** [cfg["role_info"][role]]: only a text key can be present. *)
Definition role_info_get (cfg : Cfg) (role : cell) : option RoleInfo :=
  match role with
  | Str s => dict_get (role_info cfg) s
  | _ => None
  end.

(** [x in xs] for a string and a list of strings. *)
Definition str_in (x : string) (xs : list string) : bool := existsb (String.eqb x) xs.

(** [df.isin(cfg["aliases"])] on one cell. *)
Definition isin (cfg : Cfg) (c : cell) : bool :=
  match c with
  | Str s => str_in s (aliases cfg)
  | _ => false
  end.

Definition enumerate {A : Type} (l : list A) : list (nat * A) :=
  combine (seq 0 (List.length l)) l.

(** [df.stack().items()]: every cell with its (row, column) index, row by
    row and, within a row, column by column. *)
Definition stack {A : Type} (rows : list (list A)) : list ((nat * nat) * A) :=
  List.concat (map (fun '(r, row) => map (fun '(c, v) => ((r, c), v)) (enumerate row))
              (enumerate rows)).

(** [df[col_i][r]] for an integer label [r] of the default index. *)
Definition getitem (df : DataFrame) (col_i : nat) (r : Z) : exn + cell :=
  if (0 <=? r) && (r <? Z.of_nat (List.length df))
  then inr (iat df (Z.to_nat r) col_i)
  else inl (KeyError (Num r)).

(** The text of a (row, column) tuple in an f-string. *)
Definition repr_indices (indices : nat * nat) : string :=
  ("(" ++ PyStr.of_nat (fst indices) ++ ", " ++ PyStr.of_nat (snd indices) ++ ")")%string.

Definition newline : string := String (ascii_of_nat 10) EmptyString.

(** The [ValueError] of [pd.to_datetime] on a text that does not match. *)
Definition time_data_error (s fmt : string) : exn :=
  ValueError ("time data " ++ s ++ " doesn't match format " ++ fmt)%string.

(** [pd.to_datetime(s, format="%I:%M %p").time()]; [NaT.time()] raises. *)
Definition parse_time (s : string) : exn + time :=
  match to_datetime to_datetime_IMp s with
  | Some (Val t) => inr t
  | Some NaT => inl (ValueError "NaTType does not support time")
  | None => inl (time_data_error s "%I:%M %p")
  end.

(** [pd.to_datetime(s, format="%m/%d/%Y")]. *)
Definition parse_date (s : string) : exn + or_nat date :=
  match to_datetime to_datetime_mdY s with
  | Some d => inr d
  | None => inl (time_data_error s "%m/%d/%Y")
  end.

(** [NaT.strftime(...)]. *)
Definition nat_strftime_error : exn := ValueError "NaTType does not support strftime".

(** [ts + pd.DateOffset(days=1)] on a midnight timestamp. *)
Definition add_day (d : date) : exn + date :=
  if toordinal (next_day d) <=? toordinal timestamp_max then inr (next_day d)
  else inl OutOfBoundsDatetime.

Definition stamp (now : datetime) : string :=
  ("Last updated by Lalitha on " ++ strftime_stamp now ++ newline)%string.

(** [get_event_from_entry(cfg, date, role)], with the clock reading of
    line 32 as [now]. *)
Definition get_event_from_entry (cfg : Cfg) (now : datetime) (d : date) (role : cell)
  : exn + Event :=
  match role_info_get cfg role with
  | None => inl (KeyError role)
  | Some ri =>
      let description := stamp now in
      match parse_time (ri_start_time ri) with
      | inl x => inl x
      | inr start_time =>
          match parse_time (ri_end_time ri) with
          | inl x => inl x
          | inr end_time =>
              inr (mkEvent (ri_title ri) (ri_location ri) description
                     (strftime_iso (mkdatetime d start_time))
                     (strftime_iso (mkdatetime d end_time))
                     None)
          end
      end
  end.

(** Lines 73-85: [for above_row in range(row_i - 1, -1, -1)], called with
    [n = row_i]; [None] is the [else] branch of the loop. The loop also
    stops at a missing-time text, with [date = NaT]. *)
Fixpoint scan_up (df : DataFrame) (col_i : nat) (n : nat) : option (or_nat date * nat) :=
  match n with
  | O => None
  | S above_row =>
      if isna (iat df above_row col_i) then scan_up df col_i above_row
      else match cell_to_date (iat df above_row col_i) with
           | Some d => Some (d, above_row)
           | None => scan_up df col_i above_row
           end
  end.

Definition no_date_error (indices : nat * nat) : exn :=
  ValueError ("No date was found for entry in coordinates " ++ repr_indices indices)%string.

Definition day_mismatch_error (indices : nat * nat) : exn :=
  AssertionError
    ("Day of week does not match date for entry in coordinates " ++ repr_indices indices)%string.

(** Lines 87-92: the weekday check of the value [found] of [date], found at
    [date_row]; the cell above is read first, then [date.strftime("%A")] is
    evaluated. *)
Definition check_day_of_week (df : DataFrame) (indices : nat * nat) (found : or_nat date)
    (date_row : nat) : exn + date :=
  match getitem df (snd indices) (Z.of_nat date_row - 1) with
  | inl x => inl x
  | inr day_of_week =>
      match found with
      | NaT => inl nat_strftime_error
      | Val d =>
          if str_eq_cell (strftime_A d) day_of_week then inr d
          else inl (day_mismatch_error indices)
      end
  end.

(** Lines 65-92: the role and the validated date of a matched cell. *)
Definition resolve_entry (df : DataFrame) (indices : nat * nat) : exn + (date * cell) :=
  let '(row_i, col_i) := indices in
  let role := iat df row_i 0 in
  match scan_up df col_i row_i with
  | None => inl (no_date_error indices)
  | Some (found, date_row) =>
      match check_day_of_week df indices found date_row with
      | inl x => inl x
      | inr d => inr (d, role)
      end
  end.

(** The body of the inner loop for a matched cell (lines 65-95). *)
Definition entry_event (cfg : Cfg) (df : DataFrame) (now : datetime) (indices : nat * nat)
  : exn + Event :=
  match resolve_entry df indices with
  | inl x => inl x
  | inr (d, role) => get_event_from_entry cfg now d role
  end.

(** How a generator ends: exhausted, by an exception, or inside a [while]
    loop that needs more than the given fuel. *)
Inductive ending :=
| Exhausted
| Raised (x : exn)
| Unfinished.

(** What a generator has produced when it ends, and the number of clock
    readings made so far (meaningful when the generator is exhausted). *)
Record run := mkrun {
  yielded : list Event;
  ended : ending;
  ticks : nat
}.

Definition yield (e : Event) (r : run) : run :=
  mkrun (e :: yielded r) (ended r) (ticks r).

(** One generator or loop after another: the second runs only when the first
    is exhausted. *)
Definition and_then (r : run) (k : nat -> run) : run :=
  match ended r with
  | Exhausted => let r' := k (ticks r) in mkrun (yielded r ++ yielded r') (ended r') (ticks r')
  | _ => r
  end.

(** Lines 60-95 over the items of [scheduled]. *)
Fixpoint events_of_items (cfg : Cfg) (df : DataFrame) (clock : Clock)
    (items : list ((nat * nat) * bool)) (tick : nat) : run :=
  match items with
  | [] => mkrun [] Exhausted tick
  | (indices, value) :: rest =>
      if negb value then events_of_items cfg df clock rest tick
      else match entry_event cfg df (clock tick) indices with
           | inl x => mkrun [] (Raised x) tick
           | inr e => yield e (events_of_items cfg df clock rest (S tick))
           end
  end.

(** [df.isin(cfg["aliases"]).stack()]. *)
Definition scheduled (cfg : Cfg) (df : DataFrame) : list ((nat * nat) * bool) :=
  stack (map (map (isin cfg)) df).

Definition events_of_sheet (cfg : Cfg) (clock : Clock) (df : DataFrame) (tick : nat) : run :=
  events_of_items cfg df clock (scheduled cfg df) tick.

(** [get_events_from_df(cfg, df_dict)]. *)
Fixpoint get_events_from_df (cfg : Cfg) (clock : Clock) (df_dict : Sheets) (tick : nat) : run :=
  match df_dict with
  | [] => mkrun [] Exhausted tick
  | (_sheet_name, df) :: rest =>
      and_then (events_of_sheet cfg clock df tick)
               (get_events_from_df cfg clock rest)
  end.

(** Lines 209-210, with [fuel] tests of the loop condition allowed: [None]
    when they are used up, otherwise the date the loop ends with or the
    exception of the addition. *)
Fixpoint first_date_loop (fuel : nat) (first_date : date) (days : list string)
  : option (exn + date) :=
  match fuel with
  | O => None
  | S fuel' =>
      if negb (str_in (strftime_A first_date) days)
      then match add_day first_date with
           | inl x => Some (inl x)
           | inr first_date' => first_date_loop fuel' first_date' days
           end
      else Some (inr first_date)
  end.

(** Line 224-225. *)
Definition rrule (days : list string) (end_date : string) : string :=
  let rrule_days := map (fun x => PyStr.upper (PyStr.take 2 x)) days in
  ("RRULE:FREQ=WEEKLY;BYDAY=" ++ PyStr.join "," rrule_days ++ ";UNTIL=" ++ end_date)%string.

(** The outcome of the loop body of [get_recurrence_events] for one entry. *)
Inductive outcome :=
| Yields (e : Event)
| Raises (x : exn)
| Spins.

(** Lines 185-234 for one entry. *)
Definition recurrence_event (fuel : nat) (now : datetime) (entry : Schedule) : outcome :=
  let description := stamp now in
  match parse_time (e_start_time entry) with
  | inl x => Raises x
  | inr start_time =>
  match parse_time (e_end_time entry) with
  | inl x => Raises x
  | inr end_time =>
  match parse_date (e_start_date entry) with
  | inl x => Raises x
  | inr NaT => Raises nat_strftime_error
  | inr (Val first_date) =>
  match first_date_loop fuel first_date (e_days entry) with
  | None => Spins
  | Some (inl x) => Raises x
  | Some (inr d) =>
  match parse_date (e_end_date entry) with
  | inl x => Raises x
  | inr NaT => Raises nat_strftime_error
  | inr (Val until) =>
      let end_date := strftime_Ymd until in
      Yields (mkEvent (e_title entry) (e_location entry) description
                (strftime_iso (mkdatetime d start_time))
                (strftime_iso (mkdatetime d end_time))
                (Some (rrule (e_days entry) end_date)))
  end end end end end.

(** [get_recurrence_events(cfg)] over the list of entries. *)
Fixpoint recurrence_events (fuel : nat) (clock : Clock) (entries : list Schedule) (tick : nat)
  : run :=
  match entries with
  | [] => mkrun [] Exhausted tick
  | entry :: rest =>
      match recurrence_event fuel (clock tick) entry with
      | Raises x => mkrun [] (Raised x) (S tick)
      | Spins => mkrun [] Unfinished (S tick)
      | Yields e => yield e (recurrence_events fuel clock rest (S tick))
      end
  end.

Definition get_recurrence_events (fuel : nat) (cfg : Cfg) (clock : Clock) (tick : nat) : run :=
  recurrence_events fuel clock (recurring_schedules cfg) tick.

(** Lines 250-256 of [main]: the events handed to [create_event], in order. *)
Definition main_events (fuel : nat) (cfg : Cfg) (clock : Clock) (sheets : Sheets) : run :=
  and_then (get_events_from_df cfg clock sheets 0) (get_recurrence_events fuel cfg clock).

End Lalitha.

(** ** Notions the statements use *)

Module Notions.

Import Calendar Pandas Lalitha.

(** A cell the upward scan passes over: blank, or not a date. *)
Definition skipped (c : cell) : Prop := isna c = true \/ cell_to_date c = None.

(** What the loop of lines 209-210 ends with when [d] is the first date from
    the start date on whose weekday name is in days: [d] itself, or the
    exception of the addition when [d] is past the last day of
    [pd.Timestamp]. *)
Definition first_date_or_overflow (d : date) : exn + date :=
  if toordinal d <=? toordinal timestamp_max then inr d else inl OutOfBoundsDatetime.

(** An event with its description replaced. *)
Definition with_description (s : string) (e : Event) : Event :=
  mkEvent (title e) (location e) s (start_datetime e) (end_datetime e) (recurrence e).

(** An event without its description. *)
Definition strip (e : Event) : Event := with_description EmptyString e.

(** The part of a ["%Y-%m-%dT%H:%M:%S"] text before the ["T"]: all but the
    last nine characters. *)
Definition date_component (s : string) : string :=
  substring 0 (String.length s - 9) s.

(** The matched cells of a sheet, in the order [scheduled.items()] gives
    them. *)
Definition matches (cfg : Cfg) (df : DataFrame) : list (nat * nat) :=
  map fst (filter snd (scheduled cfg df)).

(** The matched cells of all sheets, sheet after sheet. *)
Definition matched_cells (cfg : Cfg) (sheets : Sheets) : list (DataFrame * (nat * nat)) :=
  flat_map (fun '(_, df) => map (fun indices => (df, indices)) (matches cfg df)) sheets.

(** The indices of the cells of rows of the given lengths, written as two
    nested loops: over the rows from [s] on and over the columns of each. *)
Fixpoint indices_from (s : nat) (lengths : list nat) : list (nat * nat) :=
  match lengths with
  | [] => []
  | n :: rest => (map (pair s) (seq 0 n) ++ indices_from (S s) rest)%list
  end.

(** Row-major order of (row, column) indices. *)
Definition row_major_lt (a b : nat * nat) : Prop :=
  (fst a < fst b)%nat \/ (fst a = fst b /\ (snd a < snd b)%nat).

(** A grid event comes from a matched cell, a recurrence event from an
    entry. *)
Definition from_match (cfg : Cfg) (m : DataFrame * (nat * nat)) (e : Event) : Prop :=
  exists now, entry_event cfg (fst m) now (snd m) = inr e.

Definition from_entry (fuel : nat) (entry : Schedule) (e : Event) : Prop :=
  exists now, recurrence_event fuel now entry = Yields e.

(** Two runs that agree on everything but the descriptions of their
    events (and the count of clock readings). *)
Definition same_but_description (r1 r2 : run) : Prop :=
  map strip (yielded r1) = map strip (yielded r2) /\ ended r1 = ended r2.

(** The events of a run that started at clock reading [tick] carry the
    successive readings of the clock, one each. *)
Definition stamped (clock : Clock) (tick : nat) (r : run) : Prop :=
  map description (yielded r)
  = map (fun k => stamp (clock k)) (seq tick (List.length (yielded r))) /\
  (ended r = Exhausted -> ticks r = (tick + List.length (yielded r))%nat).

(** The events of a run come one by one, in order, from an initial part of
    a list of sources: from all of it when the run is exhausted. *)
Definition in_order {A : Type} (R : A -> Event -> Prop) (l : list A) (r : run) : Prop :=
  exists l1 l2, l = (l1 ++ l2)%list /\ Forall2 R l1 (yielded r) /\
                (ended r = Exhausted -> l2 = []).



(** The recurrence rule as the specification words it, for an end date
    written with ten characters, ["MM/DD/YYYY"]: the two-letter upper-case
    prefixes of the days, comma-joined, and the end date rearranged to
    ["YYYYMMDD"]. *)
Definition mmddyyyy (s : string) : bool :=
  match s with
  | String m1 (String m2 (String s1 (String d1 (String d2 (String s2
      (String y1 (String y2 (String y3 (String y4 EmptyString))))))))) =>
      PyStr.is_digit m1 && PyStr.is_digit m2 && Ascii.eqb s1 "/"
      && PyStr.is_digit d1 && PyStr.is_digit d2 && Ascii.eqb s2 "/"
      && PyStr.is_digit y1 && PyStr.is_digit y2 && PyStr.is_digit y3 && PyStr.is_digit y4
  | _ => false
  end.

Definition until_spec (end_date : string) : string :=
  (substring 6 4 end_date ++ substring 0 2 end_date ++ substring 3 2 end_date)%string.

Definition rrule_spec (days : list string) (end_date : string) : string :=
  ("RRULE:FREQ=WEEKLY;BYDAY="
   ++ PyStr.join "," (map (fun x => PyStr.upper (substring 0 2 x)) days)
   ++ ";UNTIL=" ++ until_spec end_date)%string.

End Notions.

(** ** Sample inputs *)

Module Samples.

Import Calendar Pandas Lalitha.

Local Open Scope string_scope.

Definition roles : list (string * RoleInfo) :=
  [("Usher", mkRoleInfo "Ushering" "Hall" "09:00 AM" "11:00 AM");
   ("Greeter", mkRoleInfo "Greeting" "Door" "05:00 PM" "06:30 PM")].

Definition weekly : Schedule :=
  mkSchedule "Class" "Room" ["Wednesday"; "Friday"] "06:00 PM" "07:00 PM"
    "05/02/2022" "12/31/2022".

Definition cfg : Cfg := mkCfg ["Alice"] roles [weekly].

(** A sheet with two matches, each under a date that carries its weekday
    label above it. *)
Definition sheet : DataFrame :=
  [ [NaN; Str "Wednesday"; Str "Thursday"];
    [NaN; Str "05/25/2022"; Str "05/26/2022"];
    [Str "Usher"; Str "notes"; Str "Alice"];
    [Str "Greeter"; Str "Alice"; NaN] ].

(** The column of section 8 of the specification, as a one-column sheet. *)
Definition spec_column : DataFrame :=
  [ [NaN]; [Str "notes"]; [Str "05/25/2022"]; [Str "Wednesday"]; [Str "Alice"] ].

(** A match with nothing but blanks and text above it. *)
Definition no_date_sheet : DataFrame :=
  [ [NaN]; [Str "notes"]; [Str "Alice"] ].

(** The date of a match stands in row 0. *)
Definition date_in_row0 : DataFrame :=
  [ [Str "05/25/2022"]; [Str "Alice"] ].

(** The label above the date is not the weekday of the date. *)
Definition mismatch_sheet : DataFrame :=
  [ [Str "Tuesday"]; [Str "05/25/2022"]; [Str "Alice"] ].

Definition match_sheet : DataFrame :=
  [ [Str "Wednesday"]; [Str "05/25/2022"]; [Str "Usher"] ].

Definition usher_cfg : Cfg := mkCfg ["Usher"] roles [].

(** The alias "Usher" with no role of that name configured. *)
Definition greeter_cfg : Cfg :=
  mkCfg ["Usher"] [("Greeter", mkRoleInfo "Greeting" "Door" "05:00 PM" "06:30 PM")] [].

(** A missing-time text between a match and its date. *)
Definition nat_text_sheet : DataFrame :=
  [ [Str "Wednesday"]; [Str "05/25/2022"]; [Str "NaT"]; [Str "Usher"] ].

(** A recurring entry that starts on the last day of [pd.Timestamp]. *)
Definition last_day : Schedule :=
  mkSchedule "Class" "Room" ["Wednesday"] "06:00 PM" "07:00 PM"
    "04/11/2262" "12/31/2022".

(** A recurring entry with no day at all. *)
Definition no_days : Schedule :=
  mkSchedule "Class" "Room" [] "06:00 PM" "07:00 PM" "05/02/2022" "12/31/2022".


Definition monday_wednesday : Schedule :=
  mkSchedule "Class" "Room" ["Monday"; "Wednesday"] "06:00 PM" "07:00 PM"
    "05/02/2022" "12/31/2022".

Definition noon : datetime := mkdatetime (mkdate 2022 5 1) (mktime 12 0).

(** Two clocks: one minute apart at every reading. *)
Definition clock_a : Clock := fun k => mkdatetime (mkdate 2022 5 1) (mktime 9 (Z.of_nat k)).
Definition clock_b : Clock := fun k => mkdatetime (mkdate 2022 5 1) (mktime 10 (Z.of_nat k)).

End Samples.

(** ** The calendar calls: [get_calendar], [create_event] and [main] *)

Module Driver.

Import Calendar Pandas Lalitha.

Local Open Scope string_scope.

(** The keys of [cfg] that only the calendar calls read. *)
Record CalendarCfg := mkCalendarCfg {
  calendar_name : string;
  timezone : string;
  creator_name : string;
  source_title : string;
  source_url : string
}.

(** An item of [calendarList().list()], and the response of
    [calendars().insert()]: the keys the code reads. *)
Record CalendarEntry := mkCalendarEntry {
  cal_summary : string;
  cal_id : string
}.

(** The body of [calendars().insert()] (line 152). *)
Record CalendarBody := mkCalendarBody {
  cb_summary : string;
  cb_timeZone : string
}.

(** The body of [events().insert()] (lines 161-178); ["recurrence"] is a key
    of the body only when it is one of the event. *)
Record EventBody := mkEventBody {
  creator_displayName : string;
  body_source_title : string;
  body_source_url : string;
  summary : string;
  body_location : string;
  body_description : string;
  start_dateTime : string;
  start_timeZone : string;
  end_dateTime : string;
  end_timeZone : string;
  body_recurrence : option string
}.

(** A request added to the batch (line 180). *)
Record Request := mkRequest {
  calendarId : string;
  body : EventBody
}.

(** The requests the program makes the service carry out. *)
Inductive call :=
| InsertCalendar (b : CalendarBody)
| ExecuteBatch (requests : list Request).

(** What [get_calendar] returns, the calls it has made and the lines it has
    printed. *)
Record GetCalendar := mkGetCalendar {
  gc_id : string;
  gc_calls : list call;
  gc_printed : list string
}.

(** Lines 141-146: the first calendar whose summary is the configured name;
    [None] is the [else] branch of the loop. *)
Fixpoint find_calendar (name : string) (calendars : list CalendarEntry)
  : option CalendarEntry :=
  match calendars with
  | [] => None
  | calendar :: rest =>
      if String.eqb (cal_summary calendar) name then Some calendar
      else find_calendar name rest
  end.

(** [get_calendar(cfg, service)]: [calendars] is the list of items the
    service returns, [insert] its response to the creation of a calendar. *)
Definition get_calendar (ccfg : CalendarCfg) (calendars : list CalendarEntry)
    (insert : CalendarBody -> CalendarEntry) : GetCalendar :=
  let printed :=
    ("Getting list of calendars"
     :: match calendars with [] => ["No calendars found."] | _ => [] end)%list in
  match find_calendar (calendar_name ccfg) calendars with
  | Some calendar =>
      mkGetCalendar (cal_id calendar) []
        (printed ++ [("Found calendar: " ++ cal_summary calendar ++ " - " ++ cal_id calendar)%string])%list
  | None =>
      let calendar := mkCalendarBody (calendar_name ccfg) (timezone ccfg) in
      let created_calendar := insert calendar in
      mkGetCalendar (cal_id created_calendar) [InsertCalendar calendar]
        (printed ++ [("Calendar not found, creating new calendar: " ++ calendar_name ccfg)%string;
                     ("Created calendar: " ++ cal_summary created_calendar ++ " - "
                      ++ cal_id created_calendar)%string])%list
  end.

(** The items the service lists once the calls of [get_calendar] are carried
    out: a created calendar is listed after the others. *)
Definition calendars_after (calendars : list CalendarEntry)
    (insert : CalendarBody -> CalendarEntry) (calls : list call) : list CalendarEntry :=
  fold_left (fun l c => match c with
                        | InsertCalendar b => (l ++ [insert b])%list
                        | ExecuteBatch _ => l
                        end) calls calendars.

(** [create_event(cfg, service, batch, calendar_id, event)]: the batch with
    the new request added. *)
Definition create_event (ccfg : CalendarCfg) (batch : list Request) (calendar_id : string)
    (event : Event) : list Request :=
  let body0 :=
    mkEventBody (creator_name ccfg) (source_title ccfg) (source_url ccfg)
      (title event) (location event) (description event)
      (start_datetime event) (timezone ccfg)
      (end_datetime event) (timezone ccfg) None in
  let body1 :=
    match recurrence event with
    | Some r =>
        mkEventBody (creator_displayName body0) (body_source_title body0)
          (body_source_url body0) (summary body0) (body_location body0)
          (body_description body0) (start_dateTime body0) (start_timeZone body0)
          (end_dateTime body0) (end_timeZone body0) (Some r)
    | None => body0
    end in
  (batch ++ [mkRequest calendar_id body1])%list.

(** What a run of [main] leaves behind: the calls the service has carried
    out, in order, and how the run ended. *)
Record Outcome := mkOutcome {
  calls : list call;
  printed : list string;
  finished : ending
}.

(** The two loops of lines 251-256 over the events a generator has
    yielded. *)
Definition fill_batch (ccfg : CalendarCfg) (calendar_id : string) (events : list Event)
    (batch : list Request) : list Request :=
  fold_left (fun b event => create_event ccfg b calendar_id event) events batch.

(** [main()] from line 245 on, with the sheets and the configuration already
    loaded and the service logged in: the calendar is looked up or created
    at once, the requests for the events are collected in a batch, and the
    batch is executed after both generators are exhausted; an exception of a
    generator leaves [main] before line 259. *)
Definition main (fuel : nat) (cfg : Cfg) (ccfg : CalendarCfg) (clock : Clock)
    (sheets : Sheets) (calendars : list CalendarEntry)
    (insert : CalendarBody -> CalendarEntry) : Outcome :=
  let gc := get_calendar ccfg calendars insert in
  let calendar_id := gc_id gc in
  let r := main_events fuel cfg clock sheets in
  let batch := fill_batch ccfg calendar_id (yielded r) [] in
  match ended r with
  | Exhausted => mkOutcome (gc_calls gc ++ [ExecuteBatch batch])%list (gc_printed gc) Exhausted
  | x => mkOutcome (gc_calls gc) (gc_printed gc) x
  end.

(** The request [create_event] builds for an event. *)
Definition request_of (ccfg : CalendarCfg) (calendar_id : string) (event : Event) : Request :=
  mkRequest calendar_id
    (mkEventBody (creator_name ccfg) (source_title ccfg) (source_url ccfg)
       (title event) (location event) (description event)
       (start_datetime event) (timezone ccfg)
       (end_datetime event) (timezone ccfg) (recurrence event)).

End Driver.

(** ** Sample inputs of the calendar calls *)

Module DriverSamples.

Import Pandas Lalitha Driver.

Local Open Scope string_scope.

Definition ccfg : CalendarCfg :=
  mkCalendarCfg "Duty" "America/Chicago" "Lalitha" "Schedule" "https://example.org/schedule".

Definition others : list CalendarEntry :=
  [mkCalendarEntry "Holidays" "h1"; mkCalendarEntry "Birthdays" "b1"].

Definition duty : CalendarEntry := mkCalendarEntry "Duty" "d1".

Definition later : list CalendarEntry :=
  [mkCalendarEntry "Duty" "d2"; mkCalendarEntry "Work" "w1"].

(** A service that creates the calendar it is asked for. *)
Definition insert (b : CalendarBody) : CalendarEntry :=
  mkCalendarEntry (cb_summary b) "new1".

(** A row with a match under each of two dates. *)
Definition two_in_a_row : DataFrame :=
  [ [NaN; Str "Wednesday"; Str "Thursday"];
    [NaN; Str "05/25/2022"; Str "05/26/2022"];
    [Str "Usher"; Str "Alice"; Str "Alice"] ].

End DriverSamples.

(** ** Proofs *)

Import Calendar Pandas Lalitha Notions.

Local Open Scope string_scope.
Local Open Scope Z_scope.

(** *** Options, lists and strings *)

Lemma some_inj {A : Type} (x y : A) : Some x = Some y -> x = y.
Proof. congruence. Qed.

(** A decidable property that holds somewhere below a bound has a least
    witness there. *)
Lemma least_below (p : nat -> bool) : forall m,
  (exists j, (j < m)%nat /\ p j = true) ->
  exists n, (n < m)%nat /\ p n = true /\ forall j, (j < n)%nat -> p j = false.
Proof.
  induction m; intros (j & Hj & Pj); [lia |].
  destruct (existsb p (seq 0 m)) eqn:E.
  - apply existsb_exists in E. destruct E as (x & Hx & Px). apply in_seq in Hx.
    destruct IHm as (n & Hn & Pn & L); [exists x; split; [lia | exact Px] |].
    exists n. repeat split; auto.
  - exists m. assert (A : forall i, (i < m)%nat -> p i = false).
    { intros i Hi. destruct (p i) eqn:Pi; [| reflexivity].
      rewrite <- E. symmetry. apply existsb_exists. exists i. split; [apply in_seq; lia | exact Pi]. }
    repeat split; auto.
    assert (j = m) as <-; [| exact Pj].
    destruct (Nat.eq_dec j m); [assumption |]. rewrite A in Pj by lia. discriminate.
Qed.

Lemma StronglySorted_app {A : Type} (R : A -> A -> Prop) (l1 l2 : list A) :
  StronglySorted R l1 -> StronglySorted R l2 ->
  (forall a b, In a l1 -> In b l2 -> R a b) ->
  StronglySorted R (l1 ++ l2).
Proof.
  intros S1 S2 H. induction S1 as [| a l S1 IH F]; [exact S2 |].
  cbn. constructor.
  - apply IH. intros x y Hx Hy. apply H; [right; exact Hx | exact Hy].
  - apply Forall_app. split; [exact F |].
    apply Forall_forall. intros y Hy. apply H; [left; reflexivity | exact Hy].
Qed.

Lemma filter_sorted {A B : Type} (R : A -> A -> Prop) (p : A * B -> bool) (l : list (A * B)) :
  StronglySorted R (map fst l) -> StronglySorted R (map fst (filter p l)).
Proof.
  induction l as [| x l IH]; intros S; [constructor |].
  cbn in S. inversion S as [| ? ? S' F]; subst. cbn [filter].
  destruct (p x); [| apply IH; exact S'].
  cbn. constructor; [apply IH; exact S' |].
  apply Forall_forall. intros y Hy. rewrite Forall_forall in F. apply F.
  apply in_map_iff in Hy. destruct Hy as (z & <- & Hz). apply filter_In in Hz.
  apply in_map. tauto.
Qed.

Lemma Forall2_Forall_r {A : Type} (R : A -> Event -> Prop) (P : Event -> Prop) l es :
  Forall2 R l es -> (forall a e, In a l -> R a e -> P e) -> Forall P es.
Proof.
  induction 1 as [| a e l es Ra F IH]; intros H; constructor.
  - apply (H a e); [left; reflexivity | exact Ra].
  - apply IH. intros a' e' Hin. apply H. right. exact Hin.
Qed.

Lemma substring_prefix a b : substring 0 (String.length a) (a ++ b) = a.
Proof.
  induction a as [| c a IH]; cbn.
  - destruct b; reflexivity.
  - rewrite IH. reflexivity.
Qed.

Lemma length_append a b : String.length (a ++ b) = (String.length a + String.length b)%nat.
Proof. induction a as [| c a IH]; cbn; [reflexivity | rewrite IH; reflexivity]. Qed.



(** *** The calendar *)

Lemma is_leap_true y : is_leap y = true <-> (y mod 4 = 0 /\ (y mod 100 <> 0 \/ y mod 400 = 0)).
Proof.
  unfold is_leap. rewrite andb_true_iff, orb_true_iff, negb_true_iff, !Z.eqb_eq, Z.eqb_neq.
  tauto.
Qed.

Lemma days_before_year_succ y :
  days_before_year (y + 1) = days_before_year y + (if is_leap y then 366 else 365).
Proof.
  unfold days_before_year. cbv zeta.
  replace (y + 1 - 1) with y by lia.
  destruct (is_leap y) eqn:L.
  - apply is_leap_true in L. Z.div_mod_to_equations. lia.
  - assert (~ (y mod 4 = 0 /\ (y mod 100 <> 0 \/ y mod 400 = 0))) by (rewrite <- is_leap_true; congruence).
    Z.div_mod_to_equations. lia.
Qed.

Lemma month_cases m : 1 <= m <= 12 ->
  m = 1 \/ m = 2 \/ m = 3 \/ m = 4 \/ m = 5 \/ m = 6 \/
  m = 7 \/ m = 8 \/ m = 9 \/ m = 10 \/ m = 11 \/ m = 12.
Proof. lia. Qed.

Ltac each_month H :=
  apply month_cases in H;
  repeat (destruct H as [H | H]; [subst | ]); [ .. | subst ].

Lemma toordinal_next_day d : valid_date d -> toordinal (next_day d) = toordinal d + 1.
Proof.
  destruct d as [y m dd]. unfold valid_date, toordinal, next_day. cbn [year month day].
  intros (Hy & Hm & Hd).
  destruct (dd <? days_in_month y m) eqn:E.
  - cbn [year month day]. lia.
  - apply Z.ltb_ge in E. assert (dd = days_in_month y m) by lia. subst dd. clear E Hd.
    destruct (m <? 12) eqn:M.
    + apply Z.ltb_lt in M. cbn [year month day].
      each_month Hm; try lia; unfold days_before_month, days_in_month; cbn;
        destruct (is_leap y); cbn; lia.
    + apply Z.ltb_ge in M. assert (m = 12) by lia. subst m. cbn [year month day].
      rewrite days_before_year_succ. unfold days_before_month, days_in_month. cbn.
      destruct (is_leap y), (is_leap (y + 1)); cbn; lia.
Qed.

Lemma valid_next_day d : valid_date d -> valid_date (next_day d).
Proof.
  destruct d as [y m dd]. unfold valid_date, next_day. cbn [year month day].
  intros (Hy & Hm & Hd).
  destruct (dd <? days_in_month y m) eqn:E.
  - apply Z.ltb_lt in E. cbn [year month day]. lia.
  - destruct (m <? 12) eqn:M; cbn [year month day].
    + apply Z.ltb_lt in M. repeat split; try lia.
      each_month Hm; try lia; cbn; destruct (is_leap y); lia.
    + unfold days_in_month. lia.
Qed.

Lemma weekday_range d : 0 <= weekday d < 7.
Proof. unfold weekday. apply Z.mod_pos_bound. lia. Qed.

Lemma weekday_next_day d : valid_date d -> weekday (next_day d) = (weekday d + 1) mod 7.
Proof.
  intros V. unfold weekday. rewrite (toordinal_next_day d V).
  rewrite Zplus_mod_idemp_l. f_equal. lia.
Qed.

Lemma iter_next_day_valid n d : valid_date d -> valid_date (Nat.iter n next_day d).
Proof. intros V. induction n; cbn; auto using valid_next_day. Qed.

Lemma weekday_iter n d : valid_date d ->
  weekday (Nat.iter n next_day d) = (weekday d + Z.of_nat n) mod 7.
Proof.
  intros V. induction n.
  - cbn. rewrite Z.add_0_r. symmetry. apply Z.mod_small, weekday_range.
  - cbn [Nat.iter nat_rect]. rewrite weekday_next_day by (apply iter_next_day_valid; exact V).
    change (nat_rect (fun _ => date) d (fun _ => next_day) n) with (Nat.iter n next_day d).
    rewrite IHn, Zplus_mod_idemp_l. f_equal. lia.
Qed.

Lemma toordinal_iter n d : valid_date d ->
  toordinal (Nat.iter n next_day d) = toordinal d + Z.of_nat n.
Proof.
  intros V. induction n; [cbn; lia |].
  cbn [Nat.iter nat_rect]. rewrite toordinal_next_day by (apply iter_next_day_valid; exact V).
  change (nat_rect (fun _ => date) d (fun _ => next_day) n) with (Nat.iter n next_day d).
  rewrite IHn. lia.
Qed.

(** *** What [pd.to_datetime] accepts *)


Lemma is_digit_bounds c : PyStr.is_digit c = true -> 0 <= PyStr.digit_val c <= 9.
Proof.
  unfold PyStr.is_digit, PyStr.digit_val. cbv zeta.
  rewrite andb_true_iff, !Nat.leb_le. lia.
Qed.






Lemma to_datetime_val {A : Type} (strptime : string -> option A) s a :
  to_datetime strptime s = Some (Val a) -> strptime s = Some a.
Proof.
  unfold to_datetime. destruct (is_nat_text s); [discriminate |].
  destruct (strptime s); [| discriminate]. intros H. apply some_inj in H. congruence.
Qed.

Lemma parse_time_val s t : parse_time s = inr t -> to_datetime_IMp s = Some t.
Proof.
  unfold parse_time.
  destruct (to_datetime to_datetime_IMp s) as [[v |] |] eqn:E; try discriminate.
  intros H. apply to_datetime_val. congruence.
Qed.

Lemma parse_date_val s d : parse_date s = inr (Val d) -> to_datetime_mdY s = Some d.
Proof.
  unfold parse_date. destruct (to_datetime to_datetime_mdY s) as [v |] eqn:E; [| discriminate].
  intros H. apply to_datetime_val. congruence.
Qed.

Lemma to_datetime_mdY_valid s d : to_datetime_mdY s = Some d -> valid_date d.
Proof.
  unfold to_datetime_mdY.
  destruct (break is_slash s) as [fm [| c1 r1]]; [discriminate |].
  destruct (break is_slash r1) as [fd [| c2 fy]]; [discriminate |].
  destruct (field_m fm) as [m |]; [| discriminate].
  destruct (field_d fd) as [dd |]; [| discriminate].
  destruct (field_Y fy) as [y |]; [| discriminate].
  destruct (valid_dateb (mkdate y m dd)) eqn:V; [| discriminate].
  destruct (in_timestamp_range (mkdate y m dd)); [| discriminate].
  intros H. apply some_inj in H. subst d.
  unfold valid_dateb in V. cbn [year month day] in V.
  repeat (apply andb_true_iff in V; destruct V as [V ?]).
  unfold valid_date. cbn [year month day].
  repeat match goal with H : (_ <=? _) = true |- _ => apply Z.leb_le in H end.
  lia.
Qed.

Lemma to_datetime_mdY_range s d : to_datetime_mdY s = Some d -> in_timestamp_range d = true.
Proof.
  unfold to_datetime_mdY.
  destruct (break is_slash s) as [fm [| c1 r1]]; [discriminate |].
  destruct (break is_slash r1) as [fd [| c2 fy]]; [discriminate |].
  destruct (field_m fm) as [m |]; [| discriminate].
  destruct (field_d fd) as [dd |]; [| discriminate].
  destruct (field_Y fy) as [y |]; [| discriminate].
  destruct (valid_dateb (mkdate y m dd)); [| discriminate].
  destruct (in_timestamp_range (mkdate y m dd)) eqn:R; [| discriminate].
  intros H. apply some_inj in H. subst d. exact R.
Qed.

(** *** What [strftime] prints *)





Lemma date_component_iso d t :
  date_component (strftime_iso (mkdatetime d t)) = strftime_Y_m_d d.
Proof.
  unfold date_component, strftime_iso. cbn [dt_date dt_time].
  rewrite length_append.
  replace (String.length ("T" ++ strftime_HMS t)) with 9%nat by reflexivity.
  rewrite Nat.add_sub. apply substring_prefix.
Qed.

Lemma digit_char_val c n :
  PyStr.is_digit c = true -> n mod 10 = PyStr.digit_val c -> PyStr.digit_char n = c.
Proof.
  intros D E. unfold PyStr.digit_char. rewrite E.
  unfold PyStr.is_digit in D. cbv zeta in D. apply andb_true_iff in D.
  rewrite !Nat.leb_le in D. unfold PyStr.digit_val.
  replace (Z.to_nat (48 + (Z.of_nat (nat_of_ascii c) - 48))) with (nat_of_ascii c) by lia.
  apply ascii_nat_embedding.
Qed.

Lemma pad2_digits a b :
  PyStr.is_digit a = true -> PyStr.is_digit b = true ->
  PyStr.pad2 (10 * PyStr.digit_val a + PyStr.digit_val b) = String a (String b EmptyString).
Proof.
  intros A B. pose proof (is_digit_bounds a A). pose proof (is_digit_bounds b B).
  unfold PyStr.pad2. f_equal; [| f_equal]; apply digit_char_val; auto;
    Z.div_mod_to_equations; lia.
Qed.

Lemma pad4_digits a b c d :
  PyStr.is_digit a = true -> PyStr.is_digit b = true ->
  PyStr.is_digit c = true -> PyStr.is_digit d = true ->
  PyStr.pad4 (1000 * PyStr.digit_val a + 100 * PyStr.digit_val b
              + 10 * PyStr.digit_val c + PyStr.digit_val d)
  = String a (String b (String c (String d EmptyString))).
Proof.
  intros A B C D. pose proof (is_digit_bounds a A). pose proof (is_digit_bounds b B).
  pose proof (is_digit_bounds c C). pose proof (is_digit_bounds d D).
  unfold PyStr.pad4. repeat f_equal; apply digit_char_val; auto;
    Z.div_mod_to_equations; lia.
Qed.

Lemma digit_not_slash c : PyStr.is_digit c = true -> is_slash c = false.
Proof.
  intros D. unfold is_slash. apply Ascii.eqb_neq. intros ->. discriminate D.
Qed.

Lemma digit_not_space c : PyStr.is_digit c = true -> Ascii.eqb c " " = false.
Proof. intros D. apply Ascii.eqb_neq. intros ->. discriminate D. Qed.

Lemma break_digit c r :
  PyStr.is_digit c = true ->
  break is_slash (String c r) = (String c (fst (break is_slash r)), snd (break is_slash r)).
Proof.
  intros D. cbn [break]. rewrite (digit_not_slash c D).
  destruct (break is_slash r); reflexivity.
Qed.

Lemma break_slash r : break is_slash (String "/" r) = (EmptyString, String "/" r).
Proof. reflexivity. Qed.

Lemma field_m_two a b m :
  field_m (String a (String b EmptyString)) = Some m ->
  m = 10 * PyStr.digit_val a + PyStr.digit_val b.
Proof.
  unfold field_m. destruct (_ || _); [| discriminate]. intros H. apply some_inj in H. auto.
Qed.

Lemma field_d_two a b d :
  PyStr.is_digit a = true ->
  field_d (String a (String b EmptyString)) = Some d ->
  d = 10 * PyStr.digit_val a + PyStr.digit_val b.
Proof.
  intros A. unfold field_d. rewrite (digit_not_space a A). cbn [andb].
  destruct (_ || _); [| discriminate]. intros H. apply some_inj in H. auto.
Qed.

Lemma field_Y_four a b c d y :
  field_Y (String a (String b (String c (String d EmptyString)))) = Some y ->
  y = 1000 * PyStr.digit_val a + 100 * PyStr.digit_val b
      + 10 * PyStr.digit_val c + PyStr.digit_val d.
Proof.
  unfold field_Y. destruct (_ && _); [| discriminate]. intros H. apply some_inj in H. auto.
Qed.

Lemma strftime_Ymd_rearranges s d :
  mmddyyyy s = true -> to_datetime_mdY s = Some d -> strftime_Ymd d = until_spec s.
Proof.
  intros Sh P.
  destruct s as [| m1 [| m2 [| s1 [| d1 [| d2 [| s2 [| y1 [| y2 [| y3 [| y4 [| ? ?]]]]]]]]]]];
    try discriminate Sh.
  unfold mmddyyyy in Sh. do 9 (apply andb_true_iff in Sh; destruct Sh as [Sh ?]).
  repeat match goal with H : Ascii.eqb _ _ = true |- _ => apply Ascii.eqb_eq in H; subst end.
  unfold to_datetime_mdY in P.
  rewrite (break_digit m1), (break_digit m2), break_slash in P by assumption.
  cbn [fst snd] in P.
  rewrite (break_digit d1), (break_digit d2), break_slash in P by assumption.
  cbn [fst snd] in P.
  destruct (field_m _) as [m |] eqn:Em; [| discriminate].
  destruct (field_d _) as [dd |] eqn:Ed; [| discriminate].
  destruct (field_Y _) as [y |] eqn:Ey; [| discriminate].
  destruct (valid_dateb _ && in_timestamp_range _); [| discriminate].
  apply some_inj in P. subst d.
  apply field_m_two in Em. apply field_d_two in Ed; [| assumption]. apply field_Y_four in Ey.
  subst. unfold strftime_Ymd, until_spec. cbn [year month day substring].
  rewrite pad4_digits, !pad2_digits by assumption. reflexivity.
Qed.

Lemma strftime_Ymd_length d : String.length (strftime_Ymd d) = 8%nat.
Proof. reflexivity. Qed.

(** *** The upward scan for the date (lines 73-85) *)

Lemma scan_up_some df col_i : forall n d date_row,
  scan_up df col_i n = Some (d, date_row) ->
  (date_row < n)%nat /\
  isna (iat df date_row col_i) = false /\
  cell_to_date (iat df date_row col_i) = Some d /\
  forall j, (date_row < j < n)%nat -> skipped (iat df j col_i).
Proof.
  induction n as [| k IH]; intros d date_row H; cbn in H; [discriminate |].
  destruct (isna (iat df k col_i)) eqn:Na.
  - destruct (IH _ _ H) as (L & A & B & C). repeat split; auto.
    intros j Hj. destruct (Nat.eq_dec j k) as [-> | Ne]; [left; exact Na | apply C; lia].
  - destruct (cell_to_date (iat df k col_i)) as [d' |] eqn:P.
    + inversion H; subst. repeat split; auto. intros j Hj. lia.
    + destruct (IH _ _ H) as (L & A & B & C). repeat split; auto.
      intros j Hj. destruct (Nat.eq_dec j k) as [-> | Ne]; [right; exact P | apply C; lia].
Qed.

Lemma scan_up_none df col_i : forall n,
  scan_up df col_i n = None -> forall j, (j < n)%nat -> skipped (iat df j col_i).
Proof.
  induction n as [| k IH]; intros H j Hj; [lia |]. cbn in H.
  destruct (isna (iat df k col_i)) eqn:Na.
  - destruct (Nat.eq_dec j k) as [-> | Ne]; [left; exact Na | apply IH; [exact H | lia]].
  - destruct (cell_to_date (iat df k col_i)) eqn:P; [discriminate |].
    destruct (Nat.eq_dec j k) as [-> | Ne]; [right; exact P | apply IH; [exact H | lia]].
Qed.

Lemma entry_event_no_date cfg df now row_i col_i :
  scan_up df col_i row_i = None ->
  entry_event cfg df now (row_i, col_i) = inl (no_date_error (row_i, col_i)).
Proof. intros H. unfold entry_event, resolve_entry. rewrite H. reflexivity. Qed.

Lemma entry_event_found cfg df now row_i col_i found date_row :
  scan_up df col_i row_i = Some (found, date_row) ->
  entry_event cfg df now (row_i, col_i) =
    match check_day_of_week df (row_i, col_i) found date_row with
    | inl x => inl x
    | inr d => get_event_from_entry cfg now d (iat df row_i 0)
    end.
Proof.
  intros H. unfold entry_event, resolve_entry. rewrite H.
  destruct (check_day_of_week df (row_i, col_i) found date_row); reflexivity.
Qed.

Lemma events_of_items_raise cfg df clock indices rest tick x :
  entry_event cfg df (clock tick) indices = inl x ->
  events_of_items cfg df clock ((indices, true) :: rest) tick = mkrun [] (Raised x) tick.
Proof. intros H. cbn. rewrite H. reflexivity. Qed.

(** What the loop of lines 73-85 does: it passes over blank cells and over
    cells [pd.to_datetime] raises a [ValueError] for, and stops at the first
    cell it returns something for, a date or [NaT]; when it stops at no
    cell, the match raises the "No date was found" ValueError with the
    coordinates of the match, and the generator stops there. *)
Lemma scan_up_policy (cfg : Cfg) (df : DataFrame) (clock : Clock) (row_i col_i : nat) :
  match scan_up df col_i row_i with
  | Some (found, date_row) =>
      (date_row < row_i)%nat /\
      isna (iat df date_row col_i) = false /\
      cell_to_date (iat df date_row col_i) = Some found /\
      (forall j, (date_row < j < row_i)%nat -> skipped (iat df j col_i))
  | None =>
      (forall j, (j < row_i)%nat -> skipped (iat df j col_i)) /\
      (forall rest tick,
         events_of_items cfg df clock (((row_i, col_i), true) :: rest) tick =
         mkrun []
           (Raised (ValueError ("No date was found for entry in coordinates ("
                                ++ PyStr.of_nat row_i ++ ", " ++ PyStr.of_nat col_i ++ ")")))
           tick)
  end.
Proof.
  destruct (scan_up df col_i row_i) as [[found date_row] |] eqn:E.
  - apply scan_up_some. exact E.
  - split; [apply scan_up_none; exact E |].
    intros rest tick. apply events_of_items_raise.
    rewrite entry_event_no_date by exact E. reflexivity.
Qed.

(** C1. The code departs from the claim at a missing-time text. The column
    "Wednesday", "05/25/2022", "NaT", "Usher" has a date two rows above the
    match, under its weekday (2022-05-25 is a Wednesday), and a text that
    is no "MM/DD/YYYY" date in between. The claim has the scan pass over
    that text and return the date of row 1. The code does not:
    [pd.to_datetime] returns [NaT] for the text without raising, so the
    loop stops at row 2 with [date = NaT]; line 89 reads row 1 and line 91
    raises the ValueError of [NaT.strftime], and the run yields nothing. *)
Theorem nat_text_stops_the_scan :
  cell_to_date (iat Samples.nat_text_sheet 2 0) = Some NaT /\
  cell_to_date (iat Samples.nat_text_sheet 1 0) = Some (Val (mkdate 2022 5 25)) /\
  iat Samples.nat_text_sheet 0 0 = Str (strftime_A (mkdate 2022 5 25)) /\
  scan_up Samples.nat_text_sheet 0 3 = Some (NaT, 2%nat) /\
  entry_event Samples.usher_cfg Samples.nat_text_sheet Samples.noon (3%nat, 0%nat)
  = inl (ValueError "NaTType does not support strftime") /\
  main_events 7 Samples.usher_cfg Samples.clock_a [("May", Samples.nat_text_sheet)]
  = mkrun [] (Raised (ValueError "NaTType does not support strftime")) 0.
Proof. repeat split; reflexivity. Qed.

(** The column of the specification's test: the scan from above "Alice"
    passes over the weekday text and stops at the date in row 2. *)
Example scan_up_spec_column :
  scan_up Samples.spec_column 0 4 = Some (Val (mkdate 2022 5 25), 2%nat).
Proof. reflexivity. Qed.

Example scan_up_no_date :
  entry_event Samples.cfg Samples.no_date_sheet Samples.noon (2%nat, 0%nat)
  = inl (ValueError "No date was found for entry in coordinates (2, 0)").
Proof. reflexivity. Qed.

(** A date outside the range of [pd.Timestamp] and a date that does not
    exist are passed over like any other text. *)
Example scan_up_passes_over_unusable_dates :
  scan_up [[Str "02/28/2022"]; [Str "01/01/1500"]; [Str "02/30/2022"]; [Str "Alice"]] 0 3
  = Some (Val (mkdate 2022 2 28), 0%nat).
Proof. reflexivity. Qed.

(** *** The weekday check (lines 87-92) *)

Lemma iat_not_nan_lt (df : DataFrame) r c : isna (iat df r c) = false -> (r < List.length df)%nat.
Proof.
  unfold iat. intros H. destruct (Nat.lt_ge_cases r (List.length df)) as [L | G]; [exact L |].
  rewrite (nth_overflow df [] G) in H. destruct c; discriminate.
Qed.

Lemma str_eq_cell_true s c : str_eq_cell s c = true <-> c = Str s.
Proof.
  destruct c; cbn; try (split; [discriminate | congruence]).
  rewrite String.eqb_eq. split; congruence.
Qed.

Lemma getitem_above df col_i date_row :
  (1 <= date_row)%nat -> (date_row < List.length df)%nat ->
  getitem df col_i (Z.of_nat date_row - 1) = inr (iat df (date_row - 1) col_i).
Proof.
  intros H1 H2. unfold getitem.
  replace ((0 <=? Z.of_nat date_row - 1) && (Z.of_nat date_row - 1 <? Z.of_nat (List.length df)))
    with true by (symmetry; apply andb_true_iff; split; [apply Z.leb_le | apply Z.ltb_lt]; lia).
  do 2 f_equal. lia.
Qed.

Lemma getitem_row0 df col_i : getitem df col_i (Z.of_nat 0 - 1) = inl (KeyError (Num (-1))).
Proof. reflexivity. Qed.

(** C5, as the code has it. For a date found at a row r >= 1 of column c, the
    check reads the cell at row r - 1 of column c: when that cell is the
    text of the date's weekday name the match goes on to the event assembly;
    otherwise the match raises an AssertionError whose message carries the
    coordinates of the match (and neither weekday text), and yields no
    event. *)
Theorem day_of_week_validator (cfg : Cfg) (df : DataFrame) (now : datetime)
    (row_i col_i : nat) (d : date) (date_row : nat) :
  scan_up df col_i row_i = Some (Val d, date_row) ->
  (1 <= date_row)%nat ->
  (iat df (date_row - 1) col_i = Str (strftime_A d) ->
     entry_event cfg df now (row_i, col_i)
     = get_event_from_entry cfg now d (iat df row_i 0)) /\
  (iat df (date_row - 1) col_i <> Str (strftime_A d) ->
     entry_event cfg df now (row_i, col_i)
     = inl (AssertionError
              ("Day of week does not match date for entry in coordinates ("
               ++ PyStr.of_nat row_i ++ ", " ++ PyStr.of_nat col_i ++ ")"))).
Proof.
  intros E H1. rewrite (entry_event_found _ _ _ _ _ _ _ E).
  destruct (scan_up_some _ _ _ _ _ E) as (_ & Na & _ & _).
  unfold check_day_of_week. cbn [snd].
  rewrite getitem_above by (eauto using iat_not_nan_lt).
  split; intros H.
  - rewrite (proj2 (str_eq_cell_true _ _) H). reflexivity.
  - destruct (str_eq_cell (strftime_A d) (iat df (date_row - 1) col_i)) eqn:Q.
    + apply str_eq_cell_true in Q. contradiction.
    + reflexivity.
Qed.

Lemma day_of_week_validator_witness :
  (iat Samples.match_sheet (1 - 1) 0 = Str (strftime_A (mkdate 2022 5 25)) ->
     entry_event Samples.usher_cfg Samples.match_sheet Samples.noon (2%nat, 0%nat)
     = get_event_from_entry Samples.usher_cfg Samples.noon (mkdate 2022 5 25)
         (iat Samples.match_sheet 2 0)) /\
  (iat Samples.match_sheet (1 - 1) 0 <> Str (strftime_A (mkdate 2022 5 25)) ->
     entry_event Samples.usher_cfg Samples.match_sheet Samples.noon (2%nat, 0%nat)
     = inl (AssertionError
              ("Day of week does not match date for entry in coordinates ("
               ++ PyStr.of_nat 2 ++ ", " ++ PyStr.of_nat 0 ++ ")"))).
Proof.
  apply (day_of_week_validator Samples.usher_cfg Samples.match_sheet Samples.noon
           2 0 (mkdate 2022 5 25) 1); [reflexivity | lia].
Defined.

(** C5 as stated fails: the error of a mismatch carries the coordinates of
    the match, but neither the expected weekday ("Wednesday") nor the one
    found ("Tuesday"). *)
Lemma day_mismatch_message :
  entry_event Samples.cfg Samples.mismatch_sheet Samples.noon (2%nat, 0%nat)
  = inl (AssertionError "Day of week does not match date for entry in coordinates (2, 0)")
  /\ iat Samples.mismatch_sheet 0 0 = Str "Tuesday"
  /\ strftime_A (mkdate 2022 5 25) = "Wednesday"
  /\ PyStr.contains "Tuesday"
       "Day of week does not match date for entry in coordinates (2, 0)" = false
  /\ PyStr.contains "Wednesday"
       "Day of week does not match date for entry in coordinates (2, 0)" = false.
Proof. repeat split; reflexivity. Qed.

(** C9. A date found in row 0 sends the weekday check to row -1 of the
    column, which the default index does not have: the match raises the
    KeyError of that lookup (no AssertionError, no event), and the generator
    stops there. *)
Theorem date_in_row_zero (cfg : Cfg) (df : DataFrame) (clock : Clock)
    (row_i col_i : nat) (d : date) :
  scan_up df col_i row_i = Some (Val d, 0%nat) ->
  getitem df col_i (-1) = inl (KeyError (Num (-1))) /\
  (forall now, entry_event cfg df now (row_i, col_i) = inl (KeyError (Num (-1)))) /\
  (forall rest tick,
     events_of_items cfg df clock (((row_i, col_i), true) :: rest) tick
     = mkrun [] (Raised (KeyError (Num (-1)))) tick).
Proof.
  intros E.
  assert (A : forall now, entry_event cfg df now (row_i, col_i) = inl (KeyError (Num (-1)))).
  { intros now. rewrite (entry_event_found _ _ _ _ _ _ _ E).
    unfold check_day_of_week. cbn [snd]. rewrite getitem_row0. reflexivity. }
  repeat split; [exact A |].
  intros rest tick. apply events_of_items_raise, A.
Qed.

Lemma date_in_row_zero_witness :
  getitem Samples.date_in_row0 0 (-1) = inl (KeyError (Num (-1))) /\
  (forall now, entry_event Samples.cfg Samples.date_in_row0 now (1%nat, 0%nat)
               = inl (KeyError (Num (-1)))) /\
  (forall rest tick,
     events_of_items Samples.cfg Samples.date_in_row0 Samples.clock_a
       (((1%nat, 0%nat), true) :: rest) tick
     = mkrun [] (Raised (KeyError (Num (-1)))) tick).
Proof.
  apply (date_in_row_zero Samples.cfg Samples.date_in_row0 Samples.clock_a 1 0 (mkdate 2022 5 25)).
  reflexivity.
Defined.

(** *** The role lookup (line 27) *)

(** C7. A role read from column 0 that is no key of role_info makes the
    event assembly raise the KeyError of the lookup; the match yields no
    event and the generator stops at it. *)
Theorem unknown_role (cfg : Cfg) (df : DataFrame) (clock : Clock) (row_i col_i : nat) :
  role_info_get cfg (iat df row_i 0) = None ->
  (forall now d,
     get_event_from_entry cfg now d (iat df row_i 0) = inl (KeyError (iat df row_i 0))) /\
  (forall now d, resolve_entry df (row_i, col_i) = inr (d, iat df row_i 0) ->
     entry_event cfg df now (row_i, col_i) = inl (KeyError (iat df row_i 0))) /\
  (forall rest tick, exists x,
     events_of_items cfg df clock (((row_i, col_i), true) :: rest) tick
     = mkrun [] (Raised x) tick).
Proof.
  intros H.
  assert (A : forall now d,
             get_event_from_entry cfg now d (iat df row_i 0) = inl (KeyError (iat df row_i 0))).
  { intros now d. unfold get_event_from_entry. rewrite H. reflexivity. }
  repeat split; [exact A | |].
  - intros now d R. unfold entry_event. rewrite R. apply A.
  - intros rest tick.
    assert (B : exists x, entry_event cfg df (clock tick) (row_i, col_i) = inl x).
    { unfold entry_event. destruct (resolve_entry df (row_i, col_i)) as [x | [d role]] eqn:R.
      - exists x. reflexivity.
      - assert (role = iat df row_i 0) as ->.
        { unfold resolve_entry in R.
          destruct (scan_up df col_i row_i) as [[found r'] |]; [| discriminate].
          destruct (check_day_of_week df (row_i, col_i) found r'); [discriminate |].
          inversion R; reflexivity. }
        exists (KeyError (iat df row_i 0)). apply A. }
    destruct B as (x & B). exists x. apply events_of_items_raise, B.
Qed.

Lemma unknown_role_witness :
  resolve_entry Samples.match_sheet (2%nat, 0%nat) = inr (mkdate 2022 5 25, Str "Usher") /\
  entry_event Samples.greeter_cfg Samples.match_sheet Samples.noon (2%nat, 0%nat)
  = inl (KeyError (Str "Usher")) /\
  ((forall now d,
      get_event_from_entry Samples.greeter_cfg now d (iat Samples.match_sheet 2 0)
      = inl (KeyError (iat Samples.match_sheet 2 0))) /\
   (forall now d,
      resolve_entry Samples.match_sheet (2%nat, 0%nat) = inr (d, iat Samples.match_sheet 2 0) ->
      entry_event Samples.greeter_cfg Samples.match_sheet now (2%nat, 0%nat)
      = inl (KeyError (iat Samples.match_sheet 2 0))) /\
   (forall rest tick, exists x,
      events_of_items Samples.greeter_cfg Samples.match_sheet Samples.clock_a
        (((2%nat, 0%nat), true) :: rest) tick
      = mkrun [] (Raised x) tick)).
Proof.
  split; [reflexivity |]. split; [reflexivity |].
  apply (unknown_role Samples.greeter_cfg Samples.match_sheet Samples.clock_a 2 0).
  reflexivity.
Defined.

Example unknown_role_sample :
  main_events 7 Samples.greeter_cfg Samples.clock_a [("May", Samples.match_sheet)]
  = mkrun [] (Raised (KeyError (Str "Usher"))) 0.
Proof. reflexivity. Qed.

(** *** The first date of a recurring entry (lines 208-210) *)

(** The loop ends at the first of the successive days that satisfies the
    test, or with the exception of the addition that would leave the range
    of [pd.Timestamp] before reaching it, as soon as the fuel exceeds the
    number of advances. *)
Lemma first_date_loop_least days n : forall fuel d,
  valid_date d ->
  toordinal d <= toordinal timestamp_max ->
  (n < fuel)%nat ->
  str_in (strftime_A (Nat.iter n next_day d)) days = true ->
  (forall j, (j < n)%nat -> str_in (strftime_A (Nat.iter j next_day d)) days = false) ->
  first_date_loop fuel d days = Some (first_date_or_overflow (Nat.iter n next_day d)).
Proof.
  induction n; intros fuel d V B Hf Hin Hlt.
  - destruct fuel; [lia |]. cbn [Nat.iter nat_rect first_date_loop] in *. rewrite Hin.
    cbn [negb]. unfold first_date_or_overflow.
    apply Z.leb_le in B. rewrite B. reflexivity.
  - destruct fuel; [lia |]. cbn [first_date_loop].
    pose proof (Hlt 0%nat ltac:(lia)) as H0. cbn [Nat.iter nat_rect] in H0. rewrite H0. cbn [negb].
    rewrite Nat.iter_succ_r in Hin |- *. unfold add_day.
    destruct (toordinal (next_day d) <=? toordinal timestamp_max) eqn:E.
    + apply Z.leb_le in E. apply IHn; [apply valid_next_day; exact V | exact E | lia | exact Hin |].
      intros j Hj. rewrite <- Nat.iter_succ_r. apply Hlt. lia.
    + apply Z.leb_gt in E. unfold first_date_or_overflow.
      rewrite toordinal_iter by (apply valid_next_day; exact V).
      replace (toordinal (next_day d) + Z.of_nat n <=? toordinal timestamp_max) with false;
        [reflexivity |].
      symmetry. apply Z.leb_gt. lia.
Qed.

Lemma some_day_within_week d days k :
  valid_date d -> 0 <= k < 7 -> str_in (day_name k) days = true ->
  exists j, (j < 7)%nat /\ str_in (strftime_A (Nat.iter j next_day d)) days = true.
Proof.
  intros V Hk Hin. exists (Z.to_nat ((k - weekday d) mod 7)).
  pose proof (Z.mod_pos_bound (k - weekday d) 7 ltac:(lia)) as B.
  split; [lia |]. unfold strftime_A. rewrite weekday_iter by exact V.
  rewrite Z2Nat.id by lia.
  replace ((weekday d + (k - weekday d) mod 7) mod 7) with k; [exact Hin |].
  rewrite Zplus_mod_idemp_r. replace (weekday d + (k - weekday d)) with k by lia.
  symmetry. apply Z.mod_small. exact Hk.
Qed.

(** With days no weekday is in, the loop goes on to the last day of
    [pd.Timestamp] and ends with the exception of the addition. *)
Lemma first_date_loop_never days :
  (forall d, str_in (strftime_A d) days = false) ->
  forall fuel d,
    toordinal d <= toordinal timestamp_max ->
    valid_date d ->
    first_date_loop fuel d days
    = if Z.of_nat fuel <=? toordinal timestamp_max - toordinal d
      then None else Some (inl OutOfBoundsDatetime).
Proof.
  intros H. induction fuel as [| fuel IH]; intros d B V.
  - cbn [first_date_loop]. replace (Z.of_nat 0 <=? _) with true; [reflexivity |].
    symmetry. apply Z.leb_le. lia.
  - cbn [first_date_loop]. rewrite H. cbn [negb]. unfold add_day.
    pose proof (toordinal_next_day d V) as N.
    destruct (toordinal (next_day d) <=? toordinal timestamp_max) eqn:E.
    + apply Z.leb_le in E. rewrite IH by (auto using valid_next_day).
      rewrite N.
      destruct (Z.of_nat fuel <=? toordinal timestamp_max - (toordinal d + 1)) eqn:F.
      * apply Z.leb_le in F. replace (Z.of_nat (S fuel) <=? _) with true; [reflexivity |].
        symmetry. apply Z.leb_le. lia.
      * apply Z.leb_gt in F. replace (Z.of_nat (S fuel) <=? _) with false; [reflexivity |].
        symmetry. apply Z.leb_gt. lia.
    + apply Z.leb_gt in E. replace (Z.of_nat (S fuel) <=? _) with false; [reflexivity |].
      symmetry. apply Z.leb_gt. lia.
Qed.

(** C2, as the code has it. For an entry whose start date parses and whose
    days contain the name of at least one of the seven weekdays, the loop
    ends within 7 tests of its condition (at most 6 advances): at the first
    date from the start date on whose weekday name is in days or, when that
    date is past the last day of [pd.Timestamp], with the exception of the
    addition. *)
Theorem first_date_within_week (entry : Schedule) (start : date) (k : Z) :
  to_datetime_mdY (e_start_date entry) = Some start ->
  0 <= k < 7 ->
  str_in (day_name k) (e_days entry) = true ->
  exists n,
    (n <= 6)%nat /\
    (forall fuel, (n < fuel)%nat ->
       first_date_loop fuel start (e_days entry)
       = Some (first_date_or_overflow (Nat.iter n next_day start))) /\
    first_date_loop 7 start (e_days entry)
    = Some (first_date_or_overflow (Nat.iter n next_day start)) /\
    str_in (strftime_A (Nat.iter n next_day start)) (e_days entry) = true /\
    (forall j, (j < n)%nat ->
       str_in (strftime_A (Nat.iter j next_day start)) (e_days entry) = false).
Proof.
  intros P Hk Hin. pose proof (to_datetime_mdY_range _ _ P) as R.
  apply to_datetime_mdY_valid in P.
  unfold in_timestamp_range in R. apply andb_true_iff in R. destruct R as (_ & R).
  apply Z.leb_le in R.
  destruct (least_below
              (fun j => str_in (strftime_A (Nat.iter j next_day start)) (e_days entry)) 7
              (some_day_within_week start (e_days entry) k P Hk Hin)) as (n & Hn & Pn & Ln).
  exists n. split; [lia |].
  assert (A : forall fuel, (n < fuel)%nat ->
                first_date_loop fuel start (e_days entry)
                = Some (first_date_or_overflow (Nat.iter n next_day start))).
  { intros fuel Hf. apply first_date_loop_least; assumption. }
  repeat split; auto.
Qed.

(** The specification's example: from Monday 2022-05-02 with Wednesday and
    Friday, the first date is Wednesday 2022-05-04. *)
Example first_date_spec_example :
  to_datetime_mdY "05/02/2022" = Some (mkdate 2022 5 2) /\
  strftime_A (mkdate 2022 5 2) = "Monday" /\
  first_date_loop 7 (mkdate 2022 5 2) ["Wednesday"; "Friday"] = Some (inr (mkdate 2022 5 4)).
Proof. repeat split; reflexivity. Qed.

(** An entry that starts on the last day of [pd.Timestamp], a Friday, and
    recurs on Wednesdays: the first addition raises. *)
Example first_date_past_the_last_day :
  to_datetime_mdY (e_start_date Samples.last_day) = Some (mkdate 2262 4 11) /\
  strftime_A (mkdate 2262 4 11) = "Friday" /\
  first_date_loop 7 (mkdate 2262 4 11) (e_days Samples.last_day)
  = Some (inl OutOfBoundsDatetime) /\
  recurrence_event 7 Samples.noon Samples.last_day = Raises OutOfBoundsDatetime.
Proof. repeat split; reflexivity. Qed.

Lemma first_date_within_week_witness :
  exists n,
    (n <= 6)%nat /\
    (forall fuel, (n < fuel)%nat ->
       first_date_loop fuel (mkdate 2022 5 2) (e_days Samples.weekly)
       = Some (first_date_or_overflow (Nat.iter n next_day (mkdate 2022 5 2)))) /\
    first_date_loop 7 (mkdate 2022 5 2) (e_days Samples.weekly)
    = Some (first_date_or_overflow (Nat.iter n next_day (mkdate 2022 5 2))) /\
    str_in (strftime_A (Nat.iter n next_day (mkdate 2022 5 2))) (e_days Samples.weekly) = true /\
    (forall j, (j < n)%nat ->
       str_in (strftime_A (Nat.iter j next_day (mkdate 2022 5 2))) (e_days Samples.weekly)
       = false).
Proof.
  apply (first_date_within_week Samples.weekly (mkdate 2022 5 2) 2);
    [reflexivity | lia | reflexivity].
Defined.

(** C2 as stated fails: with an empty list of days the loop is still
    running after 7 tests of its condition; it goes on, one day at a time,
    to the last day of [pd.Timestamp] (87637 days after 2022-05-02), where
    the addition raises its own exception: no InvalidRecurrence is
    raised. *)
Lemma empty_days_end_in_overflow :
  first_date_loop 7 (mkdate 2022 5 2) [] = None /\
  recurrence_event 7 Samples.noon Samples.no_days = Spins /\
  first_date_loop (Z.to_nat 87637) (mkdate 2022 5 2) [] = None /\
  first_date_loop (Z.to_nat 87638) (mkdate 2022 5 2) [] = Some (inl OutOfBoundsDatetime) /\
  recurrence_event (Z.to_nat 87638) Samples.noon Samples.no_days = Raises OutOfBoundsDatetime.
Proof.
  assert (L : forall fuel, first_date_loop fuel (mkdate 2022 5 2) []
                = if Z.of_nat fuel <=? 87637 then None else Some (inl OutOfBoundsDatetime)).
  { intros fuel. rewrite (first_date_loop_never [] (fun _ => eq_refl) fuel (mkdate 2022 5 2)).
    - reflexivity.
    - vm_compute. discriminate.
    - unfold valid_date. cbn. lia. }
  split; [reflexivity |]. split; [reflexivity |].
  split; [rewrite L, Z2Nat.id by lia; reflexivity |].
  split; [rewrite L, Z2Nat.id by lia; reflexivity |].
  generalize (L (Z.to_nat 87638)). rewrite Z2Nat.id by lia.
  generalize (Z.to_nat 87638). intros fuel E.
  unfold recurrence_event.
  change (parse_time (e_start_time Samples.no_days)) with (@inr exn _ (mktime 18 0)).
  change (parse_time (e_end_time Samples.no_days)) with (@inr exn _ (mktime 19 0)).
  change (parse_date (e_start_date Samples.no_days)) with (@inr exn _ (Val (mkdate 2022 5 2))).
  cbv beta iota. change (e_days Samples.no_days) with (@nil string). rewrite E. reflexivity.
Qed.

(** *** The recurrence rule (lines 214-225) *)

Lemma recurrence_event_inv fuel now entry e :
  recurrence_event fuel now entry = Yields e ->
  exists st et first d until,
    to_datetime_IMp (e_start_time entry) = Some st /\
    to_datetime_IMp (e_end_time entry) = Some et /\
    to_datetime_mdY (e_start_date entry) = Some first /\
    first_date_loop fuel first (e_days entry) = Some (inr d) /\
    to_datetime_mdY (e_end_date entry) = Some until /\
    e = mkEvent (e_title entry) (e_location entry) (stamp now)
          (strftime_iso (mkdatetime d st)) (strftime_iso (mkdatetime d et))
          (Some (rrule (e_days entry) (strftime_Ymd until))).
Proof.
  unfold recurrence_event.
  destruct (parse_time (e_start_time entry)) as [x | st] eqn:E1; [discriminate |].
  destruct (parse_time (e_end_time entry)) as [x | et] eqn:E2; [discriminate |].
  destruct (parse_date (e_start_date entry)) as [x | [first |]] eqn:E3; try discriminate.
  destruct (first_date_loop fuel first (e_days entry)) as [[x | d] |] eqn:E4; try discriminate.
  destruct (parse_date (e_end_date entry)) as [x | [until |]] eqn:E5; try discriminate.
  intros H. inversion H. exists st, et, first, d, until.
  auto 10 using parse_time_val, parse_date_val.
Qed.

(** C4. The recurrence rule of the event of an entry is exactly
    "RRULE:FREQ=WEEKLY;BYDAY=" followed by the two-letter upper-case
    prefixes of the days, in the order of the configuration and joined by
    commas, ";UNTIL=" and the eight characters of the end date printed as
    year, month, day; for an end date written "MM/DD/YYYY" these are its
    own digits rearranged to "YYYYMMDD". *)
Theorem rrule_shape (fuel : nat) (now : datetime) (entry : Schedule) (e : Event) :
  recurrence_event fuel now entry = Yields e ->
  exists until,
    to_datetime_mdY (e_end_date entry) = Some until /\
    recurrence e
    = Some ("RRULE:FREQ=WEEKLY;BYDAY="
            ++ PyStr.join "," (map (fun x => PyStr.upper (substring 0 2 x)) (e_days entry))
            ++ ";UNTIL=" ++ strftime_Ymd until) /\
    String.length (strftime_Ymd until) = 8%nat /\
    (mmddyyyy (e_end_date entry) = true ->
     recurrence e = Some (rrule_spec (e_days entry) (e_end_date entry))).
Proof.
  intros H. apply recurrence_event_inv in H.
  destruct H as (st & et & first & d & until & _ & _ & _ & _ & U & ->).
  exists until. cbn [recurrence]. repeat split; auto.
  intros Sh. unfold rrule, rrule_spec. rewrite (strftime_Ymd_rearranges _ _ Sh U). reflexivity.
Qed.

Lemma rrule_shape_witness :
  exists until,
    to_datetime_mdY (e_end_date Samples.monday_wednesday) = Some until /\
    recurrence (mkEvent "Class" "Room" (stamp Samples.noon)
                  "2022-05-02T18:00:00" "2022-05-02T19:00:00"
                  (Some "RRULE:FREQ=WEEKLY;BYDAY=MO,WE;UNTIL=20221231"))
    = Some ("RRULE:FREQ=WEEKLY;BYDAY="
            ++ PyStr.join ","
                 (map (fun x => PyStr.upper (substring 0 2 x)) (e_days Samples.monday_wednesday))
            ++ ";UNTIL=" ++ strftime_Ymd until) /\
    String.length (strftime_Ymd until) = 8%nat /\
    (mmddyyyy (e_end_date Samples.monday_wednesday) = true ->
     recurrence (mkEvent "Class" "Room" (stamp Samples.noon)
                   "2022-05-02T18:00:00" "2022-05-02T19:00:00"
                   (Some "RRULE:FREQ=WEEKLY;BYDAY=MO,WE;UNTIL=20221231"))
     = Some (rrule_spec (e_days Samples.monday_wednesday)
               (e_end_date Samples.monday_wednesday))).
Proof.
  apply (rrule_shape 7 Samples.noon Samples.monday_wednesday). reflexivity.
Defined.

(** The specification's example of the rule. *)
Example rrule_spec_example :
  rrule ["Monday"; "Wednesday"] (strftime_Ymd (mkdate 2022 12 31))
  = "RRULE:FREQ=WEEKLY;BYDAY=MO,WE;UNTIL=20221231" /\
  to_datetime_mdY "12/31/2022" = Some (mkdate 2022 12 31).
Proof. split; reflexivity. Qed.

(** *** The clock reaches the description only *)

Lemma strip_with_description s e : strip (with_description s e) = strip e.
Proof. reflexivity. Qed.

Lemma get_event_from_entry_clock cfg now now' d role :
  get_event_from_entry cfg now d role =
  match get_event_from_entry cfg now' d role with
  | inl x => inl x
  | inr e => inr (with_description (stamp now) e)
  end.
Proof.
  unfold get_event_from_entry.
  destruct (role_info_get cfg role) as [ri |]; [| reflexivity].
  destruct (parse_time (ri_start_time ri)) as [x | start_time]; [reflexivity |].
  destruct (parse_time (ri_end_time ri)) as [x | end_time]; reflexivity.
Qed.

Lemma entry_event_clock cfg df now now' indices :
  entry_event cfg df now indices =
  match entry_event cfg df now' indices with
  | inl x => inl x
  | inr e => inr (with_description (stamp now) e)
  end.
Proof.
  unfold entry_event. destruct (resolve_entry df indices) as [x | [d role]]; [reflexivity |].
  apply get_event_from_entry_clock.
Qed.

Lemma recurrence_event_clock fuel now now' entry :
  recurrence_event fuel now entry =
  match recurrence_event fuel now' entry with
  | Yields e => Yields (with_description (stamp now) e)
  | Raises x => Raises x
  | Spins => Spins
  end.
Proof.
  unfold recurrence_event.
  destruct (parse_time (e_start_time entry)) as [x | start_time]; [reflexivity |].
  destruct (parse_time (e_end_time entry)) as [x | end_time]; [reflexivity |].
  destruct (parse_date (e_start_date entry)) as [x | [first |]]; try reflexivity.
  destruct (first_date_loop fuel first (e_days entry)) as [[x | d] |]; try reflexivity.
  destruct (parse_date (e_end_date entry)) as [x | [until |]]; reflexivity.
Qed.

Lemma entry_event_description cfg df now indices e :
  entry_event cfg df now indices = inr e -> description e = stamp now.
Proof.
  intros H. rewrite (entry_event_clock cfg df now now indices) in H.
  destruct (entry_event cfg df now indices); inversion H. reflexivity.
Qed.

Lemma recurrence_event_description fuel now entry e :
  recurrence_event fuel now entry = Yields e -> description e = stamp now.
Proof.
  intros H. rewrite (recurrence_event_clock fuel now now entry) in H.
  destruct (recurrence_event fuel now entry); inversion H. reflexivity.
Qed.

Lemma and_then_same r1 r2 k1 k2 :
  same_but_description r1 r2 ->
  (forall t1 t2, same_but_description (k1 t1) (k2 t2)) ->
  same_but_description (and_then r1 k1) (and_then r2 k2).
Proof.
  intros (Y & E) K. unfold and_then. rewrite <- E.
  destruct (ended r1) eqn:E1; [| split; [assumption | congruence] ..].
  destruct (K (ticks r1) (ticks r2)) as (Y' & E').
  split; cbn; [rewrite !map_app; congruence | exact E'].
Qed.

Lemma events_of_items_same cfg df c1 c2 : forall items t1 t2,
  same_but_description (events_of_items cfg df c1 items t1)
                       (events_of_items cfg df c2 items t2).
Proof.
  induction items as [| [indices value] rest IH]; intros t1 t2; [split; reflexivity |].
  cbn [events_of_items]. destruct value; cbn [negb]; [| apply IH].
  rewrite (entry_event_clock cfg df (c1 t1) (c2 t2) indices).
  destruct (entry_event cfg df (c2 t2) indices) as [x | e]; [split; reflexivity |].
  destruct (IH (S t1) (S t2)) as (Y & E). split; cbn; [| exact E].
  rewrite strip_with_description. f_equal. exact Y.
Qed.

Lemma get_events_from_df_same cfg c1 c2 : forall sheets t1 t2,
  same_but_description (get_events_from_df cfg c1 sheets t1)
                       (get_events_from_df cfg c2 sheets t2).
Proof.
  induction sheets as [| [name df] rest IH]; intros t1 t2; [split; reflexivity |].
  cbn [get_events_from_df]. apply and_then_same; [apply events_of_items_same | apply IH].
Qed.

Lemma recurrence_events_same fuel c1 c2 : forall entries t1 t2,
  same_but_description (recurrence_events fuel c1 entries t1)
                       (recurrence_events fuel c2 entries t2).
Proof.
  induction entries as [| entry rest IH]; intros t1 t2; [split; reflexivity |].
  cbn [recurrence_events].
  rewrite (recurrence_event_clock fuel (c1 t1) (c2 t2) entry).
  destruct (recurrence_event fuel (c2 t2) entry) as [e | x |]; try (split; reflexivity).
  destruct (IH (S t1) (S t2)) as (Y & E). split; cbn; [| exact E].
  rewrite strip_with_description. f_equal. exact Y.
Qed.

Lemma main_events_same fuel cfg c1 c2 sheets :
  same_but_description (main_events fuel cfg c1 sheets) (main_events fuel cfg c2 sheets).
Proof.
  unfold main_events. apply and_then_same; [apply get_events_from_df_same |].
  intros t1 t2. apply recurrence_events_same.
Qed.

Lemma stamped_nil clock tick : stamped clock tick (mkrun [] Exhausted tick).
Proof. split; cbn; [reflexivity | intros _; lia]. Qed.

Lemma stamped_raise clock tick x t : stamped clock tick (mkrun [] (Raised x) t).
Proof. split; cbn; [reflexivity | discriminate]. Qed.

Lemma stamped_yield clock tick e r :
  description e = stamp (clock tick) -> stamped clock (S tick) r ->
  stamped clock tick (yield e r).
Proof.
  intros D (M & T). split; cbn.
  - rewrite D, M. reflexivity.
  - intros E. rewrite (T E). lia.
Qed.

Lemma and_then_stamped clock tick r k :
  stamped clock tick r -> (forall t, stamped clock t (k t)) ->
  stamped clock tick (and_then r k).
Proof.
  intros (M & T) K. unfold and_then. destruct (ended r) eqn:E; [| split; [exact M | intros ?; congruence] ..].
  specialize (T eq_refl). destruct (K (ticks r)) as (M' & T').
  split; cbn.
  - rewrite !map_app, length_app, seq_app, map_app, M, M', T. reflexivity.
  - intros E'. rewrite (T' E'), T, length_app. lia.
Qed.

Lemma events_of_items_stamped cfg df clock : forall items tick,
  stamped clock tick (events_of_items cfg df clock items tick).
Proof.
  induction items as [| [indices value] rest IH]; intros tick; [apply stamped_nil |].
  cbn [events_of_items]. destruct value; cbn [negb]; [| apply IH].
  destruct (entry_event cfg df (clock tick) indices) as [x | e] eqn:E; [apply stamped_raise |].
  apply stamped_yield; [eapply entry_event_description; exact E | apply IH].
Qed.

Lemma get_events_from_df_stamped cfg clock : forall sheets tick,
  stamped clock tick (get_events_from_df cfg clock sheets tick).
Proof.
  induction sheets as [| [name df] rest IH]; intros tick; [apply stamped_nil |].
  cbn [get_events_from_df]. apply and_then_stamped; [apply events_of_items_stamped | apply IH].
Qed.

Lemma recurrence_events_stamped fuel clock : forall entries tick,
  stamped clock tick (recurrence_events fuel clock entries tick).
Proof.
  induction entries as [| entry rest IH]; intros tick; [apply stamped_nil |].
  cbn [recurrence_events].
  destruct (recurrence_event fuel (clock tick) entry) as [e | x |] eqn:E.
  - apply stamped_yield; [eapply recurrence_event_description; exact E | apply IH].
  - apply stamped_raise.
  - split; cbn; [reflexivity | discriminate].
Qed.

Lemma main_events_stamped fuel cfg clock sheets :
  stamped clock 0 (main_events fuel cfg clock sheets).
Proof.
  unfold main_events. apply and_then_stamped; [apply get_events_from_df_stamped |].
  intros t. apply recurrence_events_stamped.
Qed.

Lemma events_of_items_ext cfg df c1 c2 :
  (forall k, c1 k = c2 k) ->
  forall items tick, events_of_items cfg df c1 items tick = events_of_items cfg df c2 items tick.
Proof.
  intros H. induction items as [| [indices value] rest IH]; intros tick; [reflexivity |].
  cbn [events_of_items]. rewrite H, !IH. reflexivity.
Qed.

Lemma get_events_from_df_ext cfg c1 c2 :
  (forall k, c1 k = c2 k) ->
  forall sheets tick, get_events_from_df cfg c1 sheets tick = get_events_from_df cfg c2 sheets tick.
Proof.
  intros H. induction sheets as [| [name df] rest IH]; intros tick; [reflexivity |].
  cbn [get_events_from_df]. unfold events_of_sheet, and_then.
  rewrite (events_of_items_ext cfg df c1 c2 H).
  destruct (ended (events_of_items cfg df c2 (scheduled cfg df) tick)); [| reflexivity ..].
  rewrite IH. reflexivity.
Qed.

Lemma recurrence_events_ext fuel c1 c2 :
  (forall k, c1 k = c2 k) ->
  forall entries tick, recurrence_events fuel c1 entries tick = recurrence_events fuel c2 entries tick.
Proof.
  intros H. induction entries as [| entry rest IH]; intros tick; [reflexivity |].
  cbn [recurrence_events]. rewrite H, IH. reflexivity.
Qed.

(** C6, as the code has it. Two runs over the same sheets and configuration
    agree on how they end and on every field of every event except the
    description; the description of the k-th event of a run is the stamp of
    the k-th reading of the clock; and two runs whose clock readings agree
    yield identical events. *)
Theorem deterministic_but_description (fuel : nat) (cfg : Cfg) (sheets : Sheets)
    (clock1 clock2 : Clock) :
  same_but_description (main_events fuel cfg clock1 sheets)
                       (main_events fuel cfg clock2 sheets) /\
  map description (yielded (main_events fuel cfg clock1 sheets))
  = map (fun k => stamp (clock1 k))
        (seq 0 (List.length (yielded (main_events fuel cfg clock1 sheets)))) /\
  ((forall k, clock1 k = clock2 k) ->
   main_events fuel cfg clock1 sheets = main_events fuel cfg clock2 sheets).
Proof.
  split; [apply main_events_same |].
  split; [apply main_events_stamped |].
  intros H. unfold main_events, and_then, get_recurrence_events.
  rewrite (get_events_from_df_ext cfg clock1 clock2 H).
  destruct (ended (get_events_from_df cfg clock2 sheets 0)); [| reflexivity ..].
  rewrite (recurrence_events_ext fuel clock1 clock2 H). reflexivity.
Qed.

(** C6 as stated fails: the same sheet and configuration, run at two
    different times of the day, give events with different descriptions. *)
Lemma description_reads_the_clock :
  map description (yielded (main_events 7 Samples.usher_cfg Samples.clock_a
                              [("May", Samples.match_sheet)]))
  = ["Last updated by Lalitha on 05/01/2022 at 09:00 AM" ++ newline] /\
  map description (yielded (main_events 7 Samples.usher_cfg Samples.clock_b
                              [("May", Samples.match_sheet)]))
  = ["Last updated by Lalitha on 05/01/2022 at 10:00 AM" ++ newline] /\
  (yielded (main_events 7 Samples.usher_cfg Samples.clock_a [("May", Samples.match_sheet)])
   = yielded (main_events 7 Samples.usher_cfg Samples.clock_b [("May", Samples.match_sheet)])
   -> False).
Proof.
  split; [reflexivity |]. split; [reflexivity |].
  vm_compute. intros H. discriminate H.
Qed.

(** *** [stack] lists the cells in row-major order *)

Lemma in_enumerate_from {A : Type} (l : list A) : forall s i v,
  In (i, v) (combine (seq s (List.length l)) l) <->
  (s <= i)%nat /\ nth_error l (i - s) = Some v.
Proof.
  induction l as [| a l IH]; intros s i v; cbn [List.length seq combine In].
  - split; [contradiction | intros (_ & H)]. destruct (i - s)%nat; discriminate.
  - rewrite IH. split.
    + intros [E | (L & N)].
      * inversion E; subst. rewrite Nat.sub_diag. auto.
      * split; [lia |]. replace (i - s)%nat with (S (i - S s)) by lia. exact N.
    + intros (L & N). destruct (Nat.eq_dec i s) as [-> | Ne].
      * rewrite Nat.sub_diag in N. inversion N. auto.
      * right. split; [lia |]. replace (i - s)%nat with (S (i - S s)) in N by lia. exact N.
Qed.

Lemma map_fst_enumerate_from {A : Type} (l : list A) : forall s,
  map fst (combine (seq s (List.length l)) l) = seq s (List.length l).
Proof. induction l as [| a l IH]; intros s; cbn; [reflexivity | rewrite IH; reflexivity]. Qed.

Lemma map_fst_stack_from {A : Type} (rows : list (list A)) : forall s,
  map fst (List.concat
             (map (fun '(r, row) => map (fun '(c, v) => ((r, c), v)) (enumerate row))
                  (combine (seq s (List.length rows)) rows)))
  = indices_from s (map (@List.length A) rows).
Proof.
  induction rows as [| row rows IH]; intros s; [reflexivity |].
  cbn [List.length seq combine map List.concat indices_from].
  rewrite map_app, IH. f_equal.
  unfold enumerate. rewrite map_map.
  rewrite <- (map_fst_enumerate_from row 0) at 2. rewrite map_map.
  apply map_ext. intros [c v]. reflexivity.
Qed.

Lemma map_fst_stack {A : Type} (rows : list (list A)) :
  map fst (stack rows) = indices_from 0 (map (@List.length A) rows).
Proof. apply map_fst_stack_from. Qed.

Lemma indices_from_ge lengths : forall s a, In a (indices_from s lengths) -> (s <= fst a)%nat.
Proof.
  induction lengths as [| n rest IH]; intros s a H; [contradiction |].
  cbn [indices_from] in H. apply in_app_or in H. destruct H as [H | H].
  - apply in_map_iff in H. destruct H as (c & <- & _). cbn. lia.
  - apply IH in H. lia.
Qed.

Lemma row_sorted r : forall n s,
  StronglySorted row_major_lt (map (pair r) (seq s n)).
Proof.
  induction n as [| n IH]; intros s; cbn; constructor; [apply IH |].
  apply Forall_forall. intros x Hx. apply in_map_iff in Hx.
  destruct Hx as (c & <- & Hc). apply in_seq in Hc. right. cbn. lia.
Qed.

Lemma indices_from_sorted lengths : forall s,
  StronglySorted row_major_lt (indices_from s lengths).
Proof.
  induction lengths as [| n rest IH]; intros s; [constructor |].
  cbn [indices_from]. apply StronglySorted_app; [apply row_sorted | apply IH |].
  intros a b Ha Hb. apply in_map_iff in Ha. destruct Ha as (c & <- & _).
  apply indices_from_ge in Hb. left. cbn. lia.
Qed.

Lemma matches_sorted cfg df : StronglySorted row_major_lt (matches cfg df).
Proof.
  unfold matches. apply filter_sorted. unfold scheduled. rewrite map_fst_stack.
  apply indices_from_sorted.
Qed.

Lemma in_stack {A : Type} (rows : list (list A)) r c v :
  In ((r, c), v) (stack rows) <->
  exists row, nth_error rows r = Some row /\ nth_error row c = Some v.
Proof.
  unfold stack. rewrite in_concat. split.
  - intros (l & Hl & Hv). apply in_map_iff in Hl. destruct Hl as ([r' row] & <- & Hr).
    apply in_map_iff in Hv. destruct Hv as ([c' v'] & E & Hc). inversion E; subst.
    apply in_enumerate_from in Hr. apply in_enumerate_from in Hc.
    rewrite Nat.sub_0_r in *. exists row. tauto.
  - intros (row & Hr & Hc).
    exists (map (fun '(c, v) => ((r, c), v)) (enumerate row)). split.
    + apply in_map_iff. exists (r, row). split; [reflexivity |].
      apply in_enumerate_from. rewrite Nat.sub_0_r. split; [lia | exact Hr].
    + apply in_map_iff. exists (c, v). split; [reflexivity |].
      apply in_enumerate_from. rewrite Nat.sub_0_r. split; [lia | exact Hc].
Qed.

Lemma in_matches cfg df r c :
  In (r, c) (matches cfg df) <->
  exists row v, nth_error df r = Some row /\ nth_error row c = Some v /\ isin cfg v = true.
Proof.
  unfold matches, scheduled. rewrite in_map_iff. split.
  - intros ([[r' c'] b] & E & H). cbn in E. inversion E; subst.
    apply filter_In in H. destruct H as (H & B). cbn in B. subst b.
    apply in_stack in H. destruct H as (row' & Hr & Hc).
    rewrite nth_error_map in Hr. destruct (nth_error df r) as [row |] eqn:Er; [| discriminate].
    cbn in Hr. inversion Hr; subst. rewrite nth_error_map in Hc.
    destruct (nth_error row c) as [v |] eqn:Ec; [| discriminate]. cbn in Hc. inversion Hc.
    exists row, v. auto.
  - intros (row & v & Hr & Hc & B). exists ((r, c), true). split; [reflexivity |].
    apply filter_In. split; [| reflexivity]. apply in_stack.
    exists (map (isin cfg) row). rewrite !nth_error_map, Hr, Hc. cbn. rewrite B. auto.
Qed.

(** *** The order of the events *)

Section InOrder.

Context {A : Type} (R : A -> Event -> Prop).

Lemma in_order_nil tick : in_order R [] (mkrun [] Exhausted tick).
Proof. exists [], []. repeat split; constructor. Qed.

Lemma in_order_stop l x t : x <> Exhausted -> in_order R l (mkrun [] x t).
Proof. intros H. exists [], l. repeat split; [constructor | intros E; contradiction]. Qed.

Lemma in_order_yield a l e r : R a e -> in_order R l r -> in_order R (a :: l) (yield e r).
Proof.
  intros Ra (l1 & l2 & -> & F & E). exists (a :: l1), l2.
  repeat split; [constructor; assumption | exact E].
Qed.

Lemma and_then_in_order l l' r k :
  in_order R l r -> (forall t, in_order R l' (k t)) ->
  in_order R (l ++ l') (and_then r k).
Proof.
  intros (l1 & l2 & -> & F & E) K. unfold and_then.
  destruct (ended r) eqn:Er.
  - rewrite (E eq_refl), app_nil_r.
    destruct (K (ticks r)) as (m1 & m2 & -> & F' & E').
    exists (l1 ++ m1)%list, m2. cbn. rewrite app_assoc.
    repeat split; [apply Forall2_app; assumption | exact E'].
  - exists l1, (l2 ++ l')%list. rewrite app_assoc.
    repeat split; [exact F | intros ?; congruence].
  - exists l1, (l2 ++ l')%list. rewrite app_assoc.
    repeat split; [exact F | intros ?; congruence].
Qed.

End InOrder.

Lemma in_order_map {A B : Type} (f : A -> B) (R : B -> Event -> Prop) l r :
  in_order (fun a => R (f a)) l r -> in_order R (map f l) r.
Proof.
  intros (l1 & l2 & -> & F & E). exists (map f l1), (map f l2).
  rewrite map_app. repeat split.
  - clear E. induction F; constructor; auto.
  - intros H. rewrite (E H). reflexivity.
Qed.

Lemma events_of_items_in_order cfg df clock : forall items tick,
  in_order (fun indices => from_match cfg (df, indices))
           (map fst (filter snd items)) (events_of_items cfg df clock items tick).
Proof.
  induction items as [| [indices value] rest IH]; intros tick; [apply in_order_nil |].
  cbn [events_of_items filter snd]. destruct value; cbn [negb map fst]; [| apply IH].
  destruct (entry_event cfg df (clock tick) indices) as [x | e] eqn:E.
  - apply in_order_stop. discriminate.
  - apply in_order_yield; [exists (clock tick); exact E | apply IH].
Qed.

Lemma get_events_from_df_in_order cfg clock : forall sheets tick,
  in_order (from_match cfg) (matched_cells cfg sheets) (get_events_from_df cfg clock sheets tick).
Proof.
  induction sheets as [| [name df] rest IH]; intros tick; [apply in_order_nil |].
  cbn [get_events_from_df matched_cells flat_map].
  apply and_then_in_order; [| apply IH].
  apply in_order_map with (f := fun indices => (df, indices)) (R := from_match cfg).
  apply events_of_items_in_order.
Qed.

Lemma recurrence_events_in_order fuel clock : forall entries tick,
  in_order (from_entry fuel) entries (recurrence_events fuel clock entries tick).
Proof.
  induction entries as [| entry rest IH]; intros tick; [apply in_order_nil |].
  cbn [recurrence_events].
  destruct (recurrence_event fuel (clock tick) entry) as [e | x |] eqn:E.
  - apply in_order_yield; [exists (clock tick); exact E | apply IH].
  - apply in_order_stop. discriminate.
  - apply in_order_stop. discriminate.
Qed.

(** C8. The events of a run are the grid events followed by the recurrence
    events; the grid events come one by one from the matched cells, taken
    sheet after sheet in the order of the sheets and, within a sheet, in
    row-major order (rows first, then columns); the recurrence events come
    one by one from the entries in the order of the configuration; a run
    that is exhausted has an event for every matched cell and every entry,
    and a recurrence event is only there when every matched cell has
    one. *)
Theorem output_order (fuel : nat) (cfg : Cfg) (clock : Clock) (sheets : Sheets) :
  (exists grid rec cells1 cells2 entries1 entries2,
     yielded (main_events fuel cfg clock sheets) = (grid ++ rec)%list /\
     matched_cells cfg sheets = (cells1 ++ cells2)%list /\
     Forall2 (from_match cfg) cells1 grid /\
     recurring_schedules cfg = (entries1 ++ entries2)%list /\
     Forall2 (from_entry fuel) entries1 rec /\
     (cells2 = [] \/ rec = []) /\
     (ended (main_events fuel cfg clock sheets) = Exhausted ->
      cells2 = [] /\ entries2 = [])) /\
  (forall df,
     StronglySorted row_major_lt (matches cfg df) /\
     (forall r c, In (r, c) (matches cfg df) <->
        exists row v, nth_error df r = Some row /\ nth_error row c = Some v /\
                      isin cfg v = true)).
Proof.
  split; [| intros df; split; [apply matches_sorted | intros r c; apply in_matches]].
  unfold main_events, and_then.
  destruct (get_events_from_df_in_order cfg clock sheets 0) as (c1 & c2 & Hc & Fc & Ec).
  destruct (ended (get_events_from_df cfg clock sheets 0)) eqn:E.
  - destruct (recurrence_events_in_order fuel clock (recurring_schedules cfg)
                (ticks (get_events_from_df cfg clock sheets 0))) as (e1 & e2 & He & Fe & Ee).
    exists (yielded (get_events_from_df cfg clock sheets 0)),
           (yielded (get_recurrence_events fuel cfg clock
                       (ticks (get_events_from_df cfg clock sheets 0)))),
           c1, c2, e1, e2.
    cbn [yielded ended]. repeat split; auto.
  - exists (yielded (get_events_from_df cfg clock sheets 0)), [], c1, c2,
           [], (recurring_schedules cfg).
    rewrite app_nil_r, E. repeat split; auto; try constructor; discriminate.
  - exists (yielded (get_events_from_df cfg clock sheets 0)), [], c1, c2,
           [], (recurring_schedules cfg).
    rewrite app_nil_r, E. repeat split; auto; try constructor; discriminate.
Qed.

Example output_order_sample :
  map title (yielded (main_events 7 Samples.cfg Samples.clock_a [("May", Samples.sheet)]))
  = ["Ushering"; "Greeting"; "Class"] /\
  matches Samples.cfg Samples.sheet = [(2, 2); (3, 1)]%nat.
Proof. split; reflexivity. Qed.

(** *** What every event of a run satisfies *)

Lemma main_events_Forall (P : Event -> Prop) fuel cfg clock sheets :
  (forall m e, from_match cfg m e -> P e) ->
  (forall entry e, In entry (recurring_schedules cfg) -> from_entry fuel entry e -> P e) ->
  Forall P (yielded (main_events fuel cfg clock sheets)).
Proof.
  intros Hg Hr. unfold main_events, and_then.
  destruct (get_events_from_df_in_order cfg clock sheets 0) as (c1 & c2 & Hc & Fc & Ec).
  assert (G : Forall P (yielded (get_events_from_df cfg clock sheets 0))).
  { apply (Forall2_Forall_r _ _ _ _ Fc). intros m e _. apply Hg. }
  destruct (ended (get_events_from_df cfg clock sheets 0)); [| exact G ..].
  cbn [yielded]. apply Forall_app. split; [exact G |].
  destruct (recurrence_events_in_order fuel clock (recurring_schedules cfg)
              (ticks (get_events_from_df cfg clock sheets 0))) as (e1 & e2 & He & Fe & Ee).
  apply (Forall2_Forall_r _ _ _ _ Fe). intros entry e Hin. apply Hr.
  rewrite He. apply in_or_app. left. exact Hin.
Qed.

Lemma get_event_from_entry_inv cfg now d role e :
  get_event_from_entry cfg now d role = inr e ->
  exists ri st et,
    role_info_get cfg role = Some ri /\
    to_datetime_IMp (ri_start_time ri) = Some st /\
    to_datetime_IMp (ri_end_time ri) = Some et /\
    e = mkEvent (ri_title ri) (ri_location ri) (stamp now)
          (strftime_iso (mkdatetime d st)) (strftime_iso (mkdatetime d et)) None.
Proof.
  unfold get_event_from_entry.
  destruct (role_info_get cfg role) as [ri |] eqn:E1; [| discriminate].
  destruct (parse_time (ri_start_time ri)) as [x | st] eqn:E2; [discriminate |].
  destruct (parse_time (ri_end_time ri)) as [x | et] eqn:E3; [discriminate |].
  intros H. inversion H. exists ri, st, et. auto using parse_time_val.
Qed.

Lemma entry_event_inv cfg df now indices e :
  entry_event cfg df now indices = inr e ->
  exists d role, resolve_entry df indices = inr (d, role) /\
                 get_event_from_entry cfg now d role = inr e.
Proof.
  unfold entry_event. destruct (resolve_entry df indices) as [x | [d role]]; [discriminate |].
  intros H. exists d, role. auto.
Qed.

Lemma role_info_get_some cfg role ri :
  role_info_get cfg role = Some ri -> exists s, role = Str s /\ dict_get (role_info cfg) s = Some ri.
Proof. destruct role; cbn; try discriminate. intros H. exists s. auto. Qed.

(** C10. In every event of a run the start and the end datetime are the
    texts of one calendar date combined with two times of day: their date
    components are the same text, that of this date. *)
Theorem same_calendar_date (fuel : nat) (cfg : Cfg) (clock : Clock) (sheets : Sheets) :
  Forall (fun e =>
            exists d st et,
              start_datetime e = strftime_iso (mkdatetime d st) /\
              end_datetime e = strftime_iso (mkdatetime d et) /\
              date_component (start_datetime e) = strftime_Y_m_d d /\
              date_component (end_datetime e) = date_component (start_datetime e))
         (yielded (main_events fuel cfg clock sheets)).
Proof.
  apply main_events_Forall.
  - intros m e (now & H). apply entry_event_inv in H. destruct H as (d & role & _ & H).
    apply get_event_from_entry_inv in H. destruct H as (ri & st & et & _ & _ & _ & ->).
    exists d, st, et. cbn [start_datetime end_datetime]. rewrite !date_component_iso. auto.
  - intros entry e _ (now & H). apply recurrence_event_inv in H.
    destruct H as (st & et & first & d & until & _ & _ & _ & _ & _ & ->).
    exists d, st, et. cbn [start_datetime end_datetime]. rewrite !date_component_iso. auto.
Qed.

Lemma resolve_entry_role df indices d role :
  resolve_entry df indices = inr (d, role) -> role = iat df (fst indices) 0.
Proof.
  destruct indices as [row_i col_i]. unfold resolve_entry.
  destruct (scan_up df col_i row_i) as [[found r'] |]; [| discriminate].
  destruct (check_day_of_week df (row_i, col_i) found r'); [discriminate |].
  intros H. injection H as _ <-. reflexivity.
Qed.







(** ** Further properties of the scan and of the recurring entries *)

(** X1. Matches stacked under one date share it: when every cell of the
    column from row [r1] up to the row above [r2] is blank or a cell
    [pd.to_datetime] raises a ValueError for (a text that is neither a date
    nor a missing-time text, or a number), the scan from [r2] finds what
    the scan from [r1] finds. *)
Theorem scan_up_shared_date (df : DataFrame) (col_i r1 r2 : nat) :
  (r1 <= r2)%nat ->
  (forall j, (r1 <= j < r2)%nat -> skipped (iat df j col_i)) ->
  scan_up df col_i r2 = scan_up df col_i r1.
Proof.
  intros L. induction L as [| r2 L IH]; intros H; [reflexivity |].
  cbn [scan_up].
  destruct (H r2 ltac:(lia)) as [Na | P].
  - rewrite Na. apply IH. intros j Hj. apply H. lia.
  - rewrite P. destruct (isna (iat df r2 col_i)); apply IH; intros j Hj; apply H; lia.
Qed.

Lemma scan_up_shared_date_witness :
  scan_up Samples.sheet 1 3 = scan_up Samples.sheet 1 2.
Proof.
  apply (scan_up_shared_date Samples.sheet 1 2 3); [lia |].
  intros j Hj. assert (j = 2%nat) as -> by lia. right. reflexivity.
Defined.

(** What the loop has done when it returns a date. *)
Lemma first_date_loop_some days : forall fuel start d,
  first_date_loop fuel start days = Some (inr d) ->
  exists n, (n < fuel)%nat /\ d = Nat.iter n next_day start /\
            str_in (strftime_A d) days = true /\
            forall j, (j < n)%nat -> str_in (strftime_A (Nat.iter j next_day start)) days = false.
Proof.
  induction fuel as [| fuel IH]; intros start d H; [discriminate |].
  cbn [first_date_loop] in H.
  destruct (str_in (strftime_A start) days) eqn:E; cbn [negb] in H.
  - apply some_inj in H. injection H as <-.
    exists 0%nat. repeat split; [lia | exact E | intros j Hj; lia].
  - unfold add_day in H.
    destruct (toordinal (next_day start) <=? toordinal timestamp_max); [| discriminate].
    apply IH in H. destruct H as (n & Hn & -> & Hin & Hlt).
    exists (S n). rewrite Nat.iter_succ_r. repeat split; [lia | exact Hin |].
    intros [| j] Hj; [exact E |]. rewrite Nat.iter_succ_r. apply Hlt. lia.
Qed.

(** X3. Whatever the fuel, the event of a recurring entry starts on the
    first date from the start date on whose weekday name is in days, and
    this date is at most 6 days after the start date. *)
Theorem recurrence_event_first_date (fuel : nat) (now : datetime) (entry : Schedule)
    (e : Event) :
  recurrence_event fuel now entry = Yields e ->
  exists start st n,
    to_datetime_mdY (e_start_date entry) = Some start /\
    to_datetime_IMp (e_start_time entry) = Some st /\
    (n <= 6)%nat /\
    start_datetime e = strftime_iso (mkdatetime (Nat.iter n next_day start) st) /\
    toordinal (Nat.iter n next_day start) = toordinal start + Z.of_nat n /\
    str_in (strftime_A (Nat.iter n next_day start)) (e_days entry) = true /\
    (forall j, (j < n)%nat ->
       str_in (strftime_A (Nat.iter j next_day start)) (e_days entry) = false).
Proof.
  intros H. apply recurrence_event_inv in H.
  destruct H as (st & et & start & d & until & S & _ & P & L & _ & ->).
  pose proof (to_datetime_mdY_valid _ _ P) as V.
  apply first_date_loop_some in L. destruct L as (n & _ & -> & Hin & Hlt).
  exists start, st, n. cbn [start_datetime]. repeat split; auto using toordinal_iter.
  destruct (Nat.le_gt_cases n 6) as [Le | Gt]; [exact Le | exfalso].
  specialize (Hlt (n - 7)%nat ltac:(lia)).
  assert (W : weekday (Nat.iter (n - 7) next_day start) = weekday (Nat.iter n next_day start)).
  { rewrite !weekday_iter by exact V.
    replace (Z.of_nat n) with (Z.of_nat (n - 7) + 1 * 7) by lia.
    rewrite Z.add_assoc, Z_mod_plus_full. reflexivity. }
  unfold strftime_A in Hlt, Hin. rewrite W in Hlt. congruence.
Qed.

Lemma recurrence_event_first_date_witness :
  exists start st n,
    to_datetime_mdY (e_start_date Samples.weekly) = Some start /\
    to_datetime_IMp (e_start_time Samples.weekly) = Some st /\
    (n <= 6)%nat /\
    start_datetime
      (mkEvent "Class" "Room" (stamp Samples.noon) "2022-05-04T18:00:00"
         "2022-05-04T19:00:00" (Some "RRULE:FREQ=WEEKLY;BYDAY=WE,FR;UNTIL=20221231"))
    = strftime_iso (mkdatetime (Nat.iter n next_day start) st) /\
    toordinal (Nat.iter n next_day start) = toordinal start + Z.of_nat n /\
    str_in (strftime_A (Nat.iter n next_day start)) (e_days Samples.weekly) = true /\
    (forall j, (j < n)%nat ->
       str_in (strftime_A (Nat.iter j next_day start)) (e_days Samples.weekly) = false).
Proof.
  apply (recurrence_event_first_date 100 Samples.noon Samples.weekly). reflexivity.
Defined.

(** ** Sheets one after another *)

Lemma and_then_assoc r k1 k2 :
  and_then (and_then r k1) k2 = and_then r (fun t => and_then (k1 t) k2).
Proof.
  unfold and_then. destruct (ended r) eqn:E; cbn [ended yielded ticks]; try rewrite E; auto.
  destruct (ended (k1 (ticks r))) eqn:E1; cbn [ended yielded ticks];
    [| rewrite ?E1; reflexivity ..].
  rewrite app_assoc. reflexivity.
Qed.

Lemma and_then_ext r k k' : (forall t, k t = k' t) -> and_then r k = and_then r k'.
Proof. intros H. unfold and_then. rewrite H. reflexivity. Qed.

Lemma and_then_exhausted tick k : and_then (mkrun [] Exhausted tick) k = k tick.
Proof. unfold and_then. cbn. destruct (k tick); reflexivity. Qed.

(** X4. Scanning the sheets [s1 ++ s2] is scanning [s1] and then, only
    when that is exhausted, [s2] from the clock reading [s1] has reached: an
    exception in a sheet keeps every later sheet from being scanned, and
    what earlier sheets have yielded stays. *)
Theorem get_events_from_df_app (cfg : Cfg) (clock : Clock) (s1 s2 : Sheets) (tick : nat) :
  get_events_from_df cfg clock (s1 ++ s2)%list tick
  = and_then (get_events_from_df cfg clock s1 tick) (get_events_from_df cfg clock s2) /\
  (forall x, ended (get_events_from_df cfg clock s1 tick) = Raised x ->
     get_events_from_df cfg clock (s1 ++ s2)%list tick = get_events_from_df cfg clock s1 tick).
Proof.
  assert (A : forall s1 tick,
             get_events_from_df cfg clock (s1 ++ s2)%list tick
             = and_then (get_events_from_df cfg clock s1 tick)
                        (get_events_from_df cfg clock s2)).
  { clear s1 tick. induction s1 as [| [name df] s1 IH]; intros tick.
    - cbn [app get_events_from_df]. rewrite and_then_exhausted. reflexivity.
    - cbn [app get_events_from_df]. rewrite and_then_assoc.
      apply and_then_ext. intros t. apply IH. }
  split; [apply A |].
  intros x E. rewrite A. unfold and_then. rewrite E. reflexivity.
Qed.

Lemma events_of_items_no_match cfg df clock : forall items tick,
  map fst (filter snd items) = [] ->
  events_of_items cfg df clock items tick = mkrun [] Exhausted tick.
Proof.
  induction items as [| [indices value] rest IH]; intros tick H; [reflexivity |].
  cbn [events_of_items]. destruct value; cbn in H; [discriminate |]. cbn [negb]. apply IH, H.
Qed.

(** X5. Only matched cells are looked at: sheets in which no cell is one of
    the aliases are scanned to the end without an event, an exception or a
    reading of the clock, whatever their dates and weekday labels are. *)
Theorem get_events_from_df_no_match (cfg : Cfg) (clock : Clock) (sheets : Sheets)
    (tick : nat) :
  matched_cells cfg sheets = [] ->
  get_events_from_df cfg clock sheets tick = mkrun [] Exhausted tick.
Proof.
  revert tick. induction sheets as [| [name df] rest IH]; intros tick H; [reflexivity |].
  cbn [matched_cells flat_map] in H. apply app_eq_nil in H. destruct H as (H1 & H2).
  apply map_eq_nil in H1. cbn [get_events_from_df]. unfold events_of_sheet.
  rewrite events_of_items_no_match by exact H1.
  rewrite and_then_exhausted. apply IH, H2.
Qed.

Lemma get_events_from_df_no_match_witness :
  get_events_from_df Samples.cfg Samples.clock_a
    [("Notes", [[Str "05/25/2022"]; [Str "Tuesday"]; [Str "Bob"]])] 3
  = mkrun [] Exhausted 3.
Proof.
  apply (get_events_from_df_no_match Samples.cfg Samples.clock_a
           [("Notes", [[Str "05/25/2022"]; [Str "Tuesday"]; [Str "Bob"]])] 3).
  reflexivity.
Defined.

(** ** The calendar lookup *)

Import Driver.

Lemma find_calendar_none name calendars :
  (forall x, In x calendars -> cal_summary x <> name) -> find_calendar name calendars = None.
Proof.
  induction calendars as [| c rest IH]; intros H; [reflexivity |].
  cbn [find_calendar]. destruct (String.eqb_spec (cal_summary c) name) as [E | _].
  - exfalso. apply (H c); [left; reflexivity | exact E].
  - apply IH. intros x Hx. apply H. right. exact Hx.
Qed.

Lemma find_calendar_first name pre c post :
  (forall x, In x pre -> cal_summary x <> name) -> cal_summary c = name ->
  find_calendar name (pre ++ c :: post) = Some c.
Proof.
  induction pre as [| p pre IH]; intros H E; cbn [app find_calendar].
  - rewrite E, String.eqb_refl. reflexivity.
  - destruct (String.eqb_spec (cal_summary p) name) as [E' | _].
    + exfalso. apply (H p); [left; reflexivity | exact E'].
    + apply IH; [| exact E]. intros x Hx. apply H. right. exact Hx.
Qed.

Lemma find_calendar_none_inv name calendars :
  find_calendar name calendars = None ->
  forall x, In x calendars -> cal_summary x <> name.
Proof.
  induction calendars as [| c rest IH]; intros H x Hx; [contradiction |].
  cbn [find_calendar] in H. destruct (String.eqb_spec (cal_summary c) name) as [E | N];
    [discriminate |].
  destruct Hx as [<- | Hx]; [exact N | apply IH; assumption].
Qed.

(** X6. When calendars with the configured name are listed, [get_calendar]
    returns the id of the first of them and creates nothing. *)
Theorem get_calendar_found (ccfg : CalendarCfg) (pre post : list CalendarEntry)
    (c : CalendarEntry) (insert : CalendarBody -> CalendarEntry) :
  (forall x, In x pre -> cal_summary x <> calendar_name ccfg) ->
  cal_summary c = calendar_name ccfg ->
  gc_id (get_calendar ccfg (pre ++ c :: post) insert) = cal_id c /\
  gc_calls (get_calendar ccfg (pre ++ c :: post) insert) = [].
Proof.
  intros H E. unfold get_calendar. rewrite (find_calendar_first _ _ _ _ H E). auto.
Qed.

Lemma get_calendar_found_witness :
  gc_id (get_calendar DriverSamples.ccfg
           (DriverSamples.others ++ DriverSamples.duty :: DriverSamples.later)
           DriverSamples.insert) = cal_id DriverSamples.duty /\
  gc_calls (get_calendar DriverSamples.ccfg
              (DriverSamples.others ++ DriverSamples.duty :: DriverSamples.later)
              DriverSamples.insert) = [].
Proof.
  apply (get_calendar_found DriverSamples.ccfg DriverSamples.others DriverSamples.later
           DriverSamples.duty DriverSamples.insert); [| reflexivity].
  intros x [<- | [<- | []]]; discriminate.
Defined.

(** X7. When no listed calendar has the configured name (no calendar at all
    included), [get_calendar] creates exactly one calendar, with the
    configured name and time zone, and returns the id the service gives
    it. *)
Theorem get_calendar_created (ccfg : CalendarCfg) (calendars : list CalendarEntry)
    (insert : CalendarBody -> CalendarEntry) :
  (forall x, In x calendars -> cal_summary x <> calendar_name ccfg) ->
  gc_calls (get_calendar ccfg calendars insert)
  = [InsertCalendar (mkCalendarBody (calendar_name ccfg) (timezone ccfg))] /\
  gc_id (get_calendar ccfg calendars insert)
  = cal_id (insert (mkCalendarBody (calendar_name ccfg) (timezone ccfg))).
Proof.
  intros H. unfold get_calendar. rewrite (find_calendar_none _ _ H). auto.
Qed.

Lemma get_calendar_created_witness :
  gc_calls (get_calendar DriverSamples.ccfg DriverSamples.others DriverSamples.insert)
  = [InsertCalendar (mkCalendarBody (calendar_name DriverSamples.ccfg)
                       (timezone DriverSamples.ccfg))] /\
  gc_id (get_calendar DriverSamples.ccfg DriverSamples.others DriverSamples.insert)
  = cal_id (DriverSamples.insert
              (mkCalendarBody (calendar_name DriverSamples.ccfg)
                 (timezone DriverSamples.ccfg))).
Proof.
  apply (get_calendar_created DriverSamples.ccfg DriverSamples.others DriverSamples.insert).
  intros x [<- | [<- | []]]; discriminate.
Defined.

(** X8. With a service that gives a created calendar the summary it was
    asked for and lists it from then on, a second [get_calendar] creates
    nothing and returns the id the first one returned. *)
Theorem get_calendar_twice (ccfg : CalendarCfg) (calendars : list CalendarEntry)
    (insert insert' : CalendarBody -> CalendarEntry) :
  (forall b, cal_summary (insert b) = cb_summary b) ->
  gc_calls (get_calendar ccfg
              (calendars_after calendars insert (gc_calls (get_calendar ccfg calendars insert)))
              insert') = [] /\
  gc_id (get_calendar ccfg
           (calendars_after calendars insert (gc_calls (get_calendar ccfg calendars insert)))
           insert')
  = gc_id (get_calendar ccfg calendars insert).
Proof.
  intros S.
  assert (A : get_calendar ccfg calendars insert
              = get_calendar ccfg calendars insert) by reflexivity.
  unfold get_calendar at 2 in A. revert A.
  destruct (find_calendar (calendar_name ccfg) calendars) as [c |] eqn:F; intros ->.
  - cbn [gc_calls gc_id calendars_after fold_left]. unfold get_calendar. rewrite F. auto.
  - cbn [gc_calls gc_id calendars_after fold_left]. unfold get_calendar.
    rewrite (find_calendar_first (calendar_name ccfg) calendars
               (insert (mkCalendarBody (calendar_name ccfg) (timezone ccfg))) []
               (find_calendar_none_inv _ _ F) (S _)).
    auto.
Qed.

Lemma get_calendar_twice_witness :
  gc_calls (get_calendar DriverSamples.ccfg
              (calendars_after DriverSamples.others DriverSamples.insert
                 (gc_calls (get_calendar DriverSamples.ccfg DriverSamples.others
                              DriverSamples.insert)))
              DriverSamples.insert) = [] /\
  gc_id (get_calendar DriverSamples.ccfg
           (calendars_after DriverSamples.others DriverSamples.insert
              (gc_calls (get_calendar DriverSamples.ccfg DriverSamples.others
                           DriverSamples.insert)))
           DriverSamples.insert)
  = gc_id (get_calendar DriverSamples.ccfg DriverSamples.others DriverSamples.insert).
Proof.
  apply (get_calendar_twice DriverSamples.ccfg DriverSamples.others DriverSamples.insert
           DriverSamples.insert).
  intros b. reflexivity.
Defined.

(** ** The batch of [main] *)

Lemma create_event_request ccfg batch calendar_id event :
  create_event ccfg batch calendar_id event
  = (batch ++ [request_of ccfg calendar_id event])%list.
Proof. unfold create_event, request_of. destruct (recurrence event); reflexivity. Qed.

Lemma fill_batch_map ccfg calendar_id : forall events batch,
  fill_batch ccfg calendar_id events batch
  = (batch ++ map (request_of ccfg calendar_id) events)%list.
Proof.
  unfold fill_batch. induction events as [| e events IH]; intros batch; cbn [fold_left map].
  - rewrite app_nil_r. reflexivity.
  - rewrite IH, create_event_request, <- app_assoc. reflexivity.
Qed.

Lemma get_calendar_no_batch ccfg calendars insert requests :
  In (ExecuteBatch requests) (gc_calls (get_calendar ccfg calendars insert)) -> False.
Proof.
  unfold get_calendar. destruct (find_calendar (calendar_name ccfg) calendars); cbn.
  - auto.
  - intros [H | []]. discriminate H.
Qed.

(** X9. [main] sends the events all together or not at all. When both
    generators are exhausted, the one batch it executes, after the calls of
    the calendar lookup, holds one request per yielded event, in the order
    they were yielded. When a generator raises (or does not finish), no
    batch is executed: the only call made is the creation of the calendar,
    if it was missing. *)
Theorem main_all_or_nothing (fuel : nat) (cfg : Cfg) (ccfg : CalendarCfg) (clock : Clock)
    (sheets : Sheets) (calendars : list CalendarEntry)
    (insert : CalendarBody -> CalendarEntry) :
  finished (main fuel cfg ccfg clock sheets calendars insert)
  = ended (main_events fuel cfg clock sheets) /\
  (ended (main_events fuel cfg clock sheets) = Exhausted ->
   calls (main fuel cfg ccfg clock sheets calendars insert)
   = (gc_calls (get_calendar ccfg calendars insert)
      ++ [ExecuteBatch
            (map (request_of ccfg (gc_id (get_calendar ccfg calendars insert)))
                 (yielded (main_events fuel cfg clock sheets)))])%list) /\
  (ended (main_events fuel cfg clock sheets) <> Exhausted ->
   calls (main fuel cfg ccfg clock sheets calendars insert)
   = gc_calls (get_calendar ccfg calendars insert) /\
   forall requests,
     ~ In (ExecuteBatch requests) (calls (main fuel cfg ccfg clock sheets calendars insert))).
Proof.
  unfold main. cbv zeta. rewrite fill_batch_map. cbn [app].
  destruct (ended (main_events fuel cfg clock sheets)) eqn:E; cbn [finished calls].
  - split; [reflexivity |]. split; [reflexivity | intros H; contradiction].
  - split; [reflexivity |]. split; [discriminate |]. intros _. split; [reflexivity |].
    intros requests H. exact (get_calendar_no_batch _ _ _ _ H).
  - split; [reflexivity |]. split; [discriminate |]. intros _. split; [reflexivity |].
    intros requests H. exact (get_calendar_no_batch _ _ _ _ H).
Qed.

Example main_aborts_after_creating_the_calendar :
  main 7 Samples.cfg DriverSamples.ccfg Samples.clock_a
    [("May", Samples.sheet); ("June", Samples.mismatch_sheet)]
    DriverSamples.others DriverSamples.insert
  = mkOutcome
      [InsertCalendar (mkCalendarBody "Duty" "America/Chicago")]
      ["Getting list of calendars";
       "Calendar not found, creating new calendar: Duty";
       "Created calendar: Duty - new1"]
      (Raised (AssertionError
                 "Day of week does not match date for entry in coordinates (2, 0)")).
Proof. reflexivity. Qed.

Lemma main_events_exhausted fuel cfg clock sheets :
  ended (main_events fuel cfg clock sheets) = Exhausted ->
  exists g r,
    yielded (main_events fuel cfg clock sheets) = (g ++ r)%list /\
    Forall2 (from_match cfg) (matched_cells cfg sheets) g /\
    Forall2 (from_entry fuel) (recurring_schedules cfg) r.
Proof.
  unfold main_events, and_then.
  destruct (get_events_from_df_in_order cfg clock sheets 0) as (c1 & c2 & Hc & Fc & Ec).
  destruct (ended (get_events_from_df cfg clock sheets 0)) eqn:E;
    [| intros X; congruence ..].
  destruct (recurrence_events_in_order fuel clock (recurring_schedules cfg)
              (ticks (get_events_from_df cfg clock sheets 0))) as (e1 & e2 & He & Fe & Ee).
  cbn [ended yielded]. intros X.
  exists (yielded (get_events_from_df cfg clock sheets 0)),
         (yielded (get_recurrence_events fuel cfg clock
                     (ticks (get_events_from_df cfg clock sheets 0)))).
  split; [reflexivity |].
  rewrite Hc, He, (Ec eq_refl), (Ee X), !app_nil_r. auto.
Qed.

Lemma Forall2_length_eq {A B : Type} (R : A -> B -> Prop) l1 l2 :
  Forall2 R l1 l2 -> List.length l1 = List.length l2.
Proof. induction 1; cbn; congruence. Qed.

Lemma from_match_no_recurrence cfg m e : from_match cfg m e -> recurrence e = None.
Proof.
  intros (now & H). apply entry_event_inv in H. destruct H as (d & role & _ & H).
  apply get_event_from_entry_inv in H. destruct H as (ri & st & et & _ & _ & _ & ->).
  reflexivity.
Qed.

Lemma from_entry_recurrence fuel entry e :
  from_entry fuel entry e -> exists r, recurrence e = Some r.
Proof.
  intros (now & H). apply recurrence_event_inv in H.
  destruct H as (st & et & first & d & until & _ & _ & _ & _ & _ & ->).
  eexists. reflexivity.
Qed.

(** X10. In the batch of a run that succeeds there is one request per
    matched cell followed by one request per recurring entry (nothing is
    merged or left out); every request goes to the calendar [get_calendar]
    returned and carries the configured time zone at both ends; the
    requests of matched cells have no recurrence and those of recurring
    entries have one. *)
Theorem main_batch_contents (fuel : nat) (cfg : Cfg) (ccfg : CalendarCfg) (clock : Clock)
    (sheets : Sheets) (calendars : list CalendarEntry)
    (insert : CalendarBody -> CalendarEntry) :
  finished (main fuel cfg ccfg clock sheets calendars insert) = Exhausted ->
  exists grid rec,
    calls (main fuel cfg ccfg clock sheets calendars insert)
    = (gc_calls (get_calendar ccfg calendars insert) ++ [ExecuteBatch (grid ++ rec)])%list /\
    List.length grid = List.length (matched_cells cfg sheets) /\
    List.length rec = List.length (recurring_schedules cfg) /\
    Forall (fun q => body_recurrence (body q) = None) grid /\
    Forall (fun q => exists r, body_recurrence (body q) = Some r) rec /\
    Forall (fun q => calendarId q = gc_id (get_calendar ccfg calendars insert) /\
                     start_timeZone (body q) = timezone ccfg /\
                     end_timeZone (body q) = timezone ccfg) (grid ++ rec).
Proof.
  intros F.
  assert (E : ended (main_events fuel cfg clock sheets) = Exhausted).
  { revert F. unfold main. cbv zeta.
    destruct (ended (main_events fuel cfg clock sheets)); cbn [finished]; auto. }
  destruct (main_events_exhausted fuel cfg clock sheets E) as (g & r & Y & Fc & Fe).
  unfold main. cbv zeta. rewrite fill_batch_map, E. cbn [app calls].
  set (q := request_of ccfg (gc_id (get_calendar ccfg calendars insert))).
  exists (map q g), (map q r). rewrite Y, map_app. split; [reflexivity |].
  rewrite !length_map.
  split; [symmetry; eapply Forall2_length_eq; exact Fc |].
  split; [symmetry; eapply Forall2_length_eq; exact Fe |].
  split; [| split].
  - apply Forall_map. apply (Forall2_Forall_r _ _ _ _ Fc). intros m e _ H.
    cbn. eapply from_match_no_recurrence. exact H.
  - apply Forall_map. apply (Forall2_Forall_r _ _ _ _ Fe). intros m e _ H.
    cbn. eapply from_entry_recurrence. exact H.
  - rewrite <- map_app. apply Forall_map. apply Forall_forall. intros e _. cbn. auto.
Qed.

Lemma main_batch_contents_witness :
  exists grid rec,
    calls (main 7 Samples.cfg DriverSamples.ccfg Samples.clock_a [("May", Samples.sheet)]
             DriverSamples.others DriverSamples.insert)
    = (gc_calls (get_calendar DriverSamples.ccfg DriverSamples.others DriverSamples.insert)
       ++ [ExecuteBatch (grid ++ rec)])%list /\
    List.length grid = List.length (matched_cells Samples.cfg [("May", Samples.sheet)]) /\
    List.length rec = List.length (recurring_schedules Samples.cfg) /\
    Forall (fun q => body_recurrence (body q) = None) grid /\
    Forall (fun q => exists r, body_recurrence (body q) = Some r) rec /\
    Forall (fun q => calendarId q
                     = gc_id (get_calendar DriverSamples.ccfg DriverSamples.others
                                DriverSamples.insert) /\
                     start_timeZone (body q) = timezone DriverSamples.ccfg /\
                     end_timeZone (body q) = timezone DriverSamples.ccfg) (grid ++ rec).
Proof.
  apply (main_batch_contents 7 Samples.cfg DriverSamples.ccfg Samples.clock_a
           [("May", Samples.sheet)] DriverSamples.others DriverSamples.insert).
  reflexivity.
Defined.

(** ** The loop of a recurring entry ends; the row decides the role *)

Lemma first_date_loop_ends days : forall fuel d,
  valid_date d ->
  toordinal d <= toordinal timestamp_max ->
  toordinal timestamp_max - toordinal d < Z.of_nat fuel ->
  (exists d', first_date_loop fuel d days = Some (inr d') /\
              str_in (strftime_A d') days = true /\
              toordinal d <= toordinal d' <= toordinal timestamp_max) \/
  first_date_loop fuel d days = Some (inl OutOfBoundsDatetime).
Proof.
  induction fuel as [| fuel IH]; intros d V B F; [lia |].
  cbn [first_date_loop].
  destruct (str_in (strftime_A d) days) eqn:E; cbn [negb].
  - left. exists d. repeat split; auto; lia.
  - unfold add_day. pose proof (toordinal_next_day d V) as N.
    destruct (toordinal (next_day d) <=? toordinal timestamp_max) eqn:L; [| right; reflexivity].
    apply Z.leb_le in L.
    destruct (IH (next_day d) (valid_next_day d V) L ltac:(lia)) as [(d' & H & Hin & R) | H].
    + left. exists d'. repeat split; auto; lia.
    + right. exact H.
Qed.

(** X11. The loop of a recurring entry whose start date parses always ends:
    within 213503 tests of its condition (the number of days a
    [pd.Timestamp] can hold) it has either reached a date, not before the
    start date and not past the last day of [pd.Timestamp], whose weekday
    name is in days, or raised the exception of the addition that leaves
    that range. *)
Theorem first_date_loop_terminates (entry : Schedule) (start : date) (fuel : nat) :
  to_datetime_mdY (e_start_date entry) = Some start ->
  213503 <= Z.of_nat fuel ->
  (exists d, first_date_loop fuel start (e_days entry) = Some (inr d) /\
             str_in (strftime_A d) (e_days entry) = true /\
             toordinal start <= toordinal d <= toordinal timestamp_max) \/
  first_date_loop fuel start (e_days entry) = Some (inl OutOfBoundsDatetime).
Proof.
  intros P F. pose proof (to_datetime_mdY_range _ _ P) as R.
  apply to_datetime_mdY_valid in P.
  unfold in_timestamp_range in R. apply andb_true_iff in R. destruct R as (R1 & R2).
  apply Z.leb_le in R1, R2.
  apply first_date_loop_ends; [exact P | exact R2 |].
  assert (toordinal timestamp_max - toordinal timestamp_min = 213502) by reflexivity.
  lia.
Qed.

Lemma first_date_loop_terminates_witness :
  (exists d, first_date_loop (Z.to_nat 213503) (mkdate 2022 5 2) (e_days Samples.no_days)
             = Some (inr d) /\
             str_in (strftime_A d) (e_days Samples.no_days) = true /\
             toordinal (mkdate 2022 5 2) <= toordinal d <= toordinal timestamp_max) \/
  first_date_loop (Z.to_nat 213503) (mkdate 2022 5 2) (e_days Samples.no_days)
  = Some (inl OutOfBoundsDatetime).
Proof.
  apply (first_date_loop_terminates Samples.no_days (mkdate 2022 5 2) (Z.to_nat 213503)).
  - reflexivity.
  - rewrite Z2Nat.id by lia. lia.
Defined.

(** X12. The row of a matched cell decides what the event is, the column
    only when: two matched cells of one row give events with the same
    title, the same location and the same start and end times of day, the
    ones configured for the role in column 0 of that row. *)
Theorem same_row_same_role (cfg : Cfg) (df : DataFrame) (now1 now2 : datetime)
    (row_i col1 col2 : nat) (e1 e2 : Event) :
  entry_event cfg df now1 (row_i, col1) = inr e1 ->
  entry_event cfg df now2 (row_i, col2) = inr e2 ->
  exists ri st et d1 d2,
    role_info_get cfg (iat df row_i 0) = Some ri /\
    to_datetime_IMp (ri_start_time ri) = Some st /\
    to_datetime_IMp (ri_end_time ri) = Some et /\
    title e1 = ri_title ri /\ title e2 = ri_title ri /\
    location e1 = ri_location ri /\ location e2 = ri_location ri /\
    start_datetime e1 = strftime_iso (mkdatetime d1 st) /\
    start_datetime e2 = strftime_iso (mkdatetime d2 st) /\
    end_datetime e1 = strftime_iso (mkdatetime d1 et) /\
    end_datetime e2 = strftime_iso (mkdatetime d2 et).
Proof.
  intros H1 H2.
  apply entry_event_inv in H1. destruct H1 as (d1 & role1 & R1 & G1).
  apply entry_event_inv in H2. destruct H2 as (d2 & role2 & R2 & G2).
  apply resolve_entry_role in R1, R2. cbn [fst] in R1, R2. subst role1 role2.
  apply get_event_from_entry_inv in G1. destruct G1 as (ri & st & et & L & S & E & ->).
  apply get_event_from_entry_inv in G2. destruct G2 as (ri' & st' & et' & L' & S' & E' & ->).
  rewrite L in L'. apply some_inj in L'. subst ri'.
  rewrite S in S'. apply some_inj in S'. subst st'.
  rewrite E in E'. apply some_inj in E'. subst et'.
  exists ri, st, et, d1, d2. cbn. auto 14.
Qed.

Lemma same_row_same_role_witness :
  exists ri st et d1 d2,
    role_info_get Samples.cfg (iat DriverSamples.two_in_a_row 2 0) = Some ri /\
    to_datetime_IMp (ri_start_time ri) = Some st /\
    to_datetime_IMp (ri_end_time ri) = Some et /\
    title (mkEvent "Ushering" "Hall" (stamp Samples.noon)
             "2022-05-25T09:00:00" "2022-05-25T11:00:00" None) = ri_title ri /\
    title (mkEvent "Ushering" "Hall" (stamp Samples.noon)
             "2022-05-26T09:00:00" "2022-05-26T11:00:00" None) = ri_title ri /\
    location (mkEvent "Ushering" "Hall" (stamp Samples.noon)
                "2022-05-25T09:00:00" "2022-05-25T11:00:00" None) = ri_location ri /\
    location (mkEvent "Ushering" "Hall" (stamp Samples.noon)
                "2022-05-26T09:00:00" "2022-05-26T11:00:00" None) = ri_location ri /\
    start_datetime (mkEvent "Ushering" "Hall" (stamp Samples.noon)
                      "2022-05-25T09:00:00" "2022-05-25T11:00:00" None)
    = strftime_iso (mkdatetime d1 st) /\
    start_datetime (mkEvent "Ushering" "Hall" (stamp Samples.noon)
                      "2022-05-26T09:00:00" "2022-05-26T11:00:00" None)
    = strftime_iso (mkdatetime d2 st) /\
    end_datetime (mkEvent "Ushering" "Hall" (stamp Samples.noon)
                    "2022-05-25T09:00:00" "2022-05-25T11:00:00" None)
    = strftime_iso (mkdatetime d1 et) /\
    end_datetime (mkEvent "Ushering" "Hall" (stamp Samples.noon)
                    "2022-05-26T09:00:00" "2022-05-26T11:00:00" None)
    = strftime_iso (mkdatetime d2 et).
Proof.
  apply (same_row_same_role Samples.cfg DriverSamples.two_in_a_row Samples.noon Samples.noon
           2 1 2); reflexivity.
Defined.
